(** * FinTech backend: the entry handlers over a CouchDB-style document store

    A shallow embedding of [api/index.py] and [models/expense.py].

    Conventions of the embedding.
    - A Python [str] is a [string]; each [ascii] is one code point below 256.
    - A Python value that the code inspects dynamically ([isinstance],
      truthiness, [.get], attribute access) is a [pyval].
    - An exception is a value of [exn]; a computation that may raise returns
      a [result].
    - The process environment, the clock, the secure random source and the
      document store form a [World]; a handler threads a [state] holding the
      log of HTTP exchanges and the number of random draws made so far. *)

From Stdlib Require Import ZArith NArith List String Ascii Bool Arith Lia Floats.
From Stdlib Require Import DecimalString.
Import ListNotations.
Open Scope list_scope.
Open Scope string_scope.

(** ** Python values *)

#[local] Set Warnings "-register-all".

Inductive pyval : Type :=
| PyNone
| PyBool (b : bool)
| PyInt (z : Z)
| PyFloat (x : float)
| PyStr (s : string)
| PyList (l : list pyval)
| PyDict (d : list (string * pyval))
| PyObj (cls : string) (attrs : list (string * pyval)).

Inductive exn : Type :=
| RuntimeError (msg : string)
| HTTPException (status_code : Z) (detail : string)
| AttributeError (msg : string)
| TypeError (msg : string)
| JSONDecodeError (msg : string)
| TransportError (msg : string)
| RequestValidationError (field : string)
| ValueError (msg : string).

Inductive result (A : Type) : Type :=
| Ok (a : A)
| Raise (e : exn).
Arguments Ok {A} a.
Arguments Raise {A} e.

Definition rbind {A B} (r : result A) (k : A -> result B) : result B :=
  match r with
  | Ok a => k a
  | Raise e => Raise e
  end.

Declare Scope result_scope.
Delimit Scope result_scope with result.
Notation "x <~ c ;; k" := (rbind c (fun x => k))
  (at level 61, c at next level, right associativity) : result_scope.

(** [str(e)], as the handlers interpolate it into their messages. *)
Definition Z_to_string (z : Z) : string := NilZero.string_of_int (Z.to_int z).
Definition N_to_string (n : N) : string := NilZero.string_of_uint (N.to_uint n).

Definition exn_str (e : exn) : string :=
  match e with
  | RuntimeError m => m
  | HTTPException sc d => Z_to_string sc ++ ": " ++ d
  | AttributeError m => m
  | TypeError m => m
  | JSONDecodeError m => m
  | TransportError m => m
  | RequestValidationError f => f
  | ValueError m => m
  end.

Module Py.

(** Truth value testing. *)
Definition truthy (v : pyval) : bool :=
  match v with
  | PyNone => false
  | PyBool b => b
  | PyInt z => negb (Z.eqb z 0)
  | PyFloat x => negb (PrimFloat.eqb x 0%float)
  | PyStr s => negb (String.eqb s "")
  | PyList l => match l with [] => false | _ => true end
  | PyDict d => match d with [] => false | _ => true end
  | PyObj _ _ => true
  end.

(** [a or b] with both operands already evaluated (the operands used by
    the handlers have no effect). *)
Definition or_ (a b : pyval) : pyval := if truthy a then a else b.

(** [a or b] on [Optional[str]] operands, as [os.getenv] returns them. *)
Definition or_str (a : option string) (b : string) : string :=
  match a with
  | Some s => if String.eqb s "" then b else s
  | None => b
  end.

Definition type_name (v : pyval) : string :=
  match v with
  | PyNone => "NoneType"
  | PyBool _ => "bool"
  | PyInt _ => "int"
  | PyFloat _ => "float"
  | PyStr _ => "str"
  | PyList _ => "list"
  | PyDict _ => "dict"
  | PyObj cls _ => cls
  end.

Definition no_attribute (v : pyval) (name : string) : exn :=
  AttributeError ("'" ++ type_name v ++ "' object has no attribute '" ++ name ++ "'").

Fixpoint assoc (k : string) (d : list (string * pyval)) : option pyval :=
  match d with
  | [] => None
  | (k', v) :: d' => if String.eqb k k' then Some v else assoc k d'
  end.

(** [obj.name] for a data attribute. *)
Definition getattr (v : pyval) (name : string) : result pyval :=
  match v with
  | PyObj _ attrs =>
      match assoc name attrs with
      | Some a => Ok a
      | None => Raise (no_attribute v name)
      end
  | _ => Raise (no_attribute v name)
  end.

(** [d.get(key, default)]; only a dict has the method among the values a
    decoded JSON body can hold. *)
Definition get (v : pyval) (key : string) (default : pyval) : result pyval :=
  match v with
  | PyDict d =>
      match assoc key d with
      | Some a => Ok a
      | None => Ok default
      end
  | _ => Raise (no_attribute v "get")
  end.

(** [isinstance(v, dict)]. *)
Definition is_dict (v : pyval) : bool :=
  match v with PyDict _ => true | _ => false end.

(** [v == s] for a string literal [s]. *)
Definition eq_str (v : pyval) (s : string) : bool :=
  match v with PyStr t => String.eqb t s | _ => false end.

(** The items a [for] loop visits. *)
Definition iter (v : pyval) : result (list pyval) :=
  match v with
  | PyList l => Ok l
  | PyDict d => Ok (map (fun kv => PyStr (fst kv)) d)
  | PyStr s => Ok (map (fun c => PyStr (String c "")) (list_ascii_of_string s))
  | _ => Raise (TypeError ("'" ++ type_name v ++ "' object is not iterable"))
  end.

(** [str.isspace] on one code point below 256. *)
Definition isspace (c : ascii) : bool :=
  let n := nat_of_ascii c in
  ((9 <=? n)%nat && (n <=? 13)%nat) || ((28 <=? n)%nat && (n <=? 32)%nat)
  || (n =? 133)%nat || (n =? 160)%nat.

Fixpoint lstrip (P : ascii -> bool) (s : string) : string :=
  match s with
  | EmptyString => EmptyString
  | String c s' => if P c then lstrip P s' else s
  end.

Fixpoint rstrip (P : ascii -> bool) (s : string) : string :=
  match s with
  | EmptyString => EmptyString
  | String c s' =>
      match rstrip P s' with
      | EmptyString => if P c then EmptyString else String c EmptyString
      | r => String c r
      end
  end.

(** [s.strip()] is [strip isspace s]; [s.strip(chars)] is
    [strip (one_of chars) s]. *)
Definition strip (P : ascii -> bool) (s : string) : string :=
  rstrip P (lstrip P s).

Definition one_of (chars : string) (c : ascii) : bool :=
  existsb (Ascii.eqb c) (list_ascii_of_string chars).

(** [s.zfill(width)] for a string of digits. *)
Definition zfill (width : nat) (s : string) : string :=
  string_of_list_ascii (repeat "0"%char (width - String.length s)) ++ s.

(** [model_dump()] of a pydantic model instance: its fields as a dict,
    nested models dumped in turn. *)
Fixpoint dump (v : pyval) : pyval :=
  match v with
  | PyObj _ attrs => PyDict (map (fun kv => let '(k, a) := kv in (k, dump a)) attrs)
  | PyList l => PyList (map dump l)
  | PyDict d => PyDict (map (fun kv => let '(k, a) := kv in (k, dump a)) d)
  | _ => v
  end.

Definition model_dump (v : pyval) : result pyval :=
  match v with
  | PyObj _ _ => Ok (dump v)
  | _ => Raise (no_attribute v "model_dump")
  end.

End Py.

(** ** The fragment of [re] used by the name validator *)

Module Re.

Inductive item : Type :=
| Chr (c : ascii)
| Rng (lo hi : ascii).

(** A bracket expression [[...]]. *)
Definition cset := list item.

Definition item_mem (c : ascii) (i : item) : bool :=
  match i with
  | Chr d => Ascii.eqb c d
  | Rng lo hi =>
      (nat_of_ascii lo <=? nat_of_ascii c)%nat && (nat_of_ascii c <=? nat_of_ascii hi)%nat
  end.

Definition cset_mem (cs : cset) (c : ascii) : bool := existsb (item_mem c) cs.

Inductive node : Type :=
| Bol                 (* ^ *)
| Eol                 (* $ *)
| In (cs : cset)      (* [...] *)
| Star (cs : cset).   (* [...]* , greedy *)

Definition regex := list node.

(** [$] without [re.MULTILINE]: at the end of the string, or just before
    a newline that ends the string. *)
Definition at_eol (rest : string) : bool :=
  match rest with
  | EmptyString => true
  | String c EmptyString => Ascii.eqb c "010"%char
  | _ => false
  end.

(** Backtracking matcher; [bos] tells whether the position is the start
    of the string and [rest] is the text from the position on. *)
Fixpoint run (r : regex) : bool -> string -> bool :=
  match r with
  | [] => fun _ _ => true
  | Bol :: k => fun bos rest => bos && run k bos rest
  | Eol :: k => fun bos rest => at_eol rest && run k bos rest
  | In cs :: k => fun _ rest =>
      match rest with
      | String c rest' => cset_mem cs c && run k false rest'
      | EmptyString => false
      end
  | Star cs :: k =>
      fix star (bos : bool) (rest : string) {struct rest} : bool :=
        match rest with
        | String c rest' => (cset_mem cs c && star false rest') || run k bos rest
        | EmptyString => run k bos rest
        end
  end.

(** [pattern.match(s) is not None]. *)
Definition matches (r : regex) (s : string) : bool := run r true s.

End Re.

(** ** [urllib.parse.quote] *)

Module Urllib.

Definition always_safe : string :=
  "ABCDEFGHIJKLMNOPQRSTUVWXYZabcdefghijklmnopqrstuvwxyz0123456789_.-~".

Definition hex_digit (n : nat) : ascii :=
  nth n (list_ascii_of_string "0123456789ABCDEF") "0"%char.

Definition percent (byte : nat) : string :=
  String "%" (String (hex_digit (byte / 16)) (String (hex_digit (byte mod 16)) "")).

(** UTF-8 bytes of one code point below 256. *)
Definition utf8 (c : ascii) : list nat :=
  let n := nat_of_ascii c in
  if (n <? 128)%nat then [n] else [192 + n / 64; 128 + n mod 64].

Definition quote_char (safe : string) (c : ascii) : string :=
  if (nat_of_ascii c <? 128)%nat && (Py.one_of always_safe c || Py.one_of safe c)
  then String c ""
  else concat "" (map percent (utf8 c)).

Fixpoint quote (s : string) (safe : string) : string :=
  match s with
  | EmptyString => EmptyString
  | String c s' => quote_char safe c ++ quote s' safe
  end.

End Urllib.

(** ** [json.dumps], as the client encodes a [json=] body *)

Module Json.

(** What encoding a value raises, if anything: the client encodes with
    [allow_nan=False], so a float that is not finite is refused; an object
    that is none of the JSON types is not serializable. Entries are visited
    in order. *)
Fixpoint dumps (v : pyval) : result unit :=
  match v with
  | PyNone | PyBool _ | PyInt _ | PyStr _ => Ok tt
  | PyFloat x =>
      if PrimFloat.is_finite x then Ok tt
      else Raise (ValueError "Out of range float values are not JSON compliant")
  | PyList l =>
      (fix items (l : list pyval) : result unit :=
         match l with
         | [] => Ok tt
         | a :: l' => rbind (dumps a) (fun _ => items l')
         end) l
  | PyDict d =>
      (fix items (d : list (string * pyval)) : result unit :=
         match d with
         | [] => Ok tt
         | (_, a) :: d' => rbind (dumps a) (fun _ => items d')
         end) d
  | PyObj cls _ =>
      Raise (TypeError ("Object of type " ++ cls ++ " is not JSON serializable"))
  end.

End Json.

(** ** [datetime] *)

Record datetime : Type := {
  year : N; month : N; day : N;
  hour : N; minute : N; second : N; microsecond : N
}.

(** [dt.isoformat(timespec="milliseconds")] of a naive datetime. *)
Definition isoformat_milliseconds (dt : datetime) : string :=
  Py.zfill 4 (N_to_string (year dt)) ++ "-" ++
  Py.zfill 2 (N_to_string (month dt)) ++ "-" ++
  Py.zfill 2 (N_to_string (day dt)) ++ "T" ++
  Py.zfill 2 (N_to_string (hour dt)) ++ ":" ++
  Py.zfill 2 (N_to_string (minute dt)) ++ ":" ++
  Py.zfill 2 (N_to_string (second dt)) ++ "." ++
  Py.zfill 3 (N_to_string (microsecond dt / 1000)%N).

(** ** The HTTP client and the world around a handler *)

Inductive method : Type := GET | PUT | POST.

Inductive payload_kind : Type :=
| NoBody
| Content (bytes : string)
| Json (doc : pyval).

Record request : Type := {
  rq_method : method;
  rq_url : string;
  rq_params : list (string * string);
  rq_headers : list (string * string);
  rq_body : payload_kind
}.

Record response : Type := {
  status_code : Z;
  text : string;
  json : pyval + string   (* [inr msg]: the body is not JSON and [.json()] raises *)
}.

Inductive http_result : Type :=
| Answered (r : response)
| Failed (msg : string).     (* transport failure or timeout *)

Definition exchange : Type := request * http_result.

Record World : Type := {
  getenv : string -> option string;
  utcnow : datetime;
  entropy : nat -> nat;                               (* the n-th secure random draw *)
  store : list exchange -> request -> http_result     (* may depend on what came before *)
}.

Record state : Type := {
  trace : list exchange;     (* oldest first *)
  draws : nat
}.

Definition M (A : Type) : Type := state -> result A * state.

Definition ret {A} (a : A) : M A := fun st => (Ok a, st).
Definition raise {A} (e : exn) : M A := fun st => (Raise e, st).
Definition lift {A} (r : result A) : M A := fun st => (r, st).
Definition bind {A B} (c : M A) (k : A -> M B) : M B :=
  fun st =>
    match c st with
    | (Ok a, st') => k a st'
    | (Raise e, st') => (Raise e, st')
    end.

(** [try: c  except Exception as e: raise h(e)]. *)
Definition reraise {A} (c : M A) (h : exn -> exn) : M A :=
  fun st =>
    match c st with
    | (Ok a, st') => (Ok a, st')
    | (Raise e, st') => (Raise (h e), st')
    end.

Declare Scope handler_scope.
Delimit Scope handler_scope with handler.
Notation "x <- c ;; k" := (bind c (fun x => k))
  (at level 61, c at next level, right associativity) : handler_scope.

(** One request through the client: logged, then answered by the store. *)
Definition send (W : World) (rq : request) : M response :=
  fun st =>
    let a := store W (trace st) rq in
    let st' := {| trace := trace st ++ [(rq, a)]; draws := draws st |} in
    match a with
    | Answered r => (Ok r, st')
    | Failed msg => (Raise (TransportError msg), st')
    end.

(** [secrets.choice(seq)] for a non-empty [seq]. *)
Definition secrets_choice (W : World) (seq : list ascii) : M ascii :=
  fun st =>
    let i := entropy W (draws st) mod List.length seq in
    (Ok (nth i seq "000"%char), {| trace := trace st; draws := S (draws st) |}).

Definition status_in (sc : Z) (codes : list Z) : bool := existsb (Z.eqb sc) codes.

(** ** models/expense.py *)

Module Models.

Record EntryMeta : Type := {
  voiceText : option string;
  asrConfidence : option float;    (* Field(default=None, ge=0, le=1) *)
  lang : option string
}.

(** A validated instance of the create model. *)
Record EntryCreate : Type := {
  entryType : string;              (* Literal: expense, income *)
  category : string;
  amount : float;
  currency : string;               (* Field(default=PKR, min_length=1) *)
  paymentMethod : string;          (* Field(default=cash) *)
  notes : option string;
  recordedBy : string;             (* Literal: voice, manual; default manual *)
  deviceId : option string;
  meta : option EntryMeta
}.

(** The decoded body of a create request, one entry per declared field,
    each value already of the field's type. [None] is a key that the body
    does not carry (or carries as null, for a field declared Optional).
    [b_extra] holds every key that the model does not declare. *)
Record body : Type := {
  b_entryType : option string;
  b_category : option string;
  b_amount : option float;
  b_currency : option string;
  b_paymentMethod : option string;
  b_notes : option string;
  b_recordedBy : option string;
  b_deviceId : option string;
  b_meta : option EntryMeta;
  b_extra : list (string * pyval)
}.

Definition literal (allowed : list string) (s : string) : bool :=
  existsb (String.eqb s) allowed.

Definition required {A} (field : string) (v : option A) : result A :=
  match v with
  | Some a => Ok a
  | None => Raise (RequestValidationError field)
  end.

Definition check (field : string) (b : bool) : result unit :=
  if b then Ok tt else Raise (RequestValidationError field).

Definition EntryMeta_validate (m : EntryMeta) : result EntryMeta :=
  match asrConfidence m with
  | None => Ok m
  | Some x =>
      (_ <~ check "asrConfidence" (PrimFloat.leb 0%float x && PrimFloat.leb x 1%float) ;;
       Ok m)%result
  end.

(** Validation of a body against the create model: required fields,
    literals, constraints and defaults (a default is not validated);
    undeclared keys are ignored. *)
Definition EntryCreate_validate (b : body) : result EntryCreate :=
  (et <~ required "entryType" (b_entryType b) ;;
   _ <~ check "entryType" (literal ["expense"; "income"] et) ;;
   cat <~ required "category" (b_category b) ;;
   amt <~ required "amount" (b_amount b) ;;
   cur <~ match b_currency b with
          | None => Ok "PKR"
          | Some c => (_ <~ check "currency" (1 <=? String.length c)%nat ;; Ok c)
          end ;;
   pm <~ Ok (match b_paymentMethod b with None => "cash" | Some p => p end) ;;
   rb <~ match b_recordedBy b with
         | None => Ok "manual"
         | Some r => (_ <~ check "recordedBy" (literal ["voice"; "manual"] r) ;; Ok r)
         end ;;
   mt <~ match b_meta b with
         | None => Ok None
         | Some m => (m' <~ EntryMeta_validate m ;; Ok (Some m'))
         end ;;
   Ok {| entryType := et; category := cat; amount := amt; currency := cur;
         paymentMethod := pm; notes := b_notes b; recordedBy := rb;
         deviceId := b_deviceId b; meta := mt |})%result.

Definition opt_str (o : option string) : pyval :=
  match o with Some s => PyStr s | None => PyNone end.

Definition opt_float (o : option float) : pyval :=
  match o with Some x => PyFloat x | None => PyNone end.

(** The instances as Python objects: exactly the declared fields. *)
Definition EntryMeta_instance (m : EntryMeta) : pyval :=
  PyObj "EntryMeta"
    [("voiceText", opt_str (voiceText m));
     ("asrConfidence", opt_float (asrConfidence m));
     ("lang", opt_str (lang m))].

Definition EntryCreate_instance (p : EntryCreate) : pyval :=
  PyObj "EntryCreate"
    [("entryType", PyStr (entryType p));
     ("category", PyStr (category p));
     ("amount", PyFloat (amount p));
     ("currency", PyStr (currency p));
     ("paymentMethod", PyStr (paymentMethod p));
     ("notes", opt_str (notes p));
     ("recordedBy", PyStr (recordedBy p));
     ("deviceId", opt_str (deviceId p));
     ("meta", match meta p with
              | Some m => EntryMeta_instance m
              | None => PyNone
              end)].

End Models.

(** ** api/index.py *)

Record config : Type := { base_url : string; db : string }.

Definition double_quote : string := String "034"%char "".
Definition single_quote : string := "'".

Definition get_couch_config (W : World) : result config :=
  let body : result config :=
    let couch_url :=
      Py.strip (Py.one_of single_quote)
        (Py.strip (Py.one_of double_quote)
           (Py.strip Py.isspace
              (Py.or_str (getenv W "COUCHDB_URL")
                 (Py.or_str (getenv W "NEXT_PUBLIC_COUCHDB_URL") "")))) in
    let db_name :=
      Py.strip Py.isspace
        (Py.or_str (getenv W "COUCHDB_DB")
           (Py.or_str (getenv W "NEXT_PUBLIC_DB_NAME") "fintech")) in
    if String.eqb couch_url ""
    then Raise (RuntimeError "COUCHDB_URL missing in environment")
    else Ok {| base_url := Py.rstrip (Py.one_of "/") couch_url; db := db_name |} in
  match body with
  | Ok cfg => Ok cfg
  | Raise e => Raise (HTTPException 500 ("Config error: " ++ exn_str e))
  end.

(** The two bracket expressions of the pattern, then the pattern
    [^[a-z][a-z0-9_\$\(\)\+\-\/]*$] itself. *)
Definition first_class : Re.cset := [Re.Rng "a" "z"]%char.

Definition rest_class : Re.cset :=
  [Re.Rng "a" "z"; Re.Rng "0" "9"; Re.Chr "_"; Re.Chr "$"; Re.Chr "(";
   Re.Chr ")"; Re.Chr "+"; Re.Chr "-"; Re.Chr "/"]%char.

Definition db_name_pattern : Re.regex :=
  [Re.Bol; Re.In first_class; Re.Star rest_class; Re.Eol].

Definition validate_db_name (db_name : pyval) : result unit :=
  match db_name with
  | PyStr s =>
      if String.eqb s ""
      then Raise (RuntimeError "COUCHDB_DB (or NEXT_PUBLIC_DB_NAME) is empty or invalid")
      else if negb (Re.matches db_name_pattern s)
      then Raise (RuntimeError
                    "Invalid CouchDB database name. Use lowercase a-z, 0-9, and _$()+-/")
      else Ok tt
  | _ => Raise (RuntimeError "COUCHDB_DB (or NEXT_PUBLIC_DB_NAME) is empty or invalid")
  end.

Definition accept_json : list (string * string) := [("Accept", "application/json")].

Definition db_path (base_url db : string) : string :=
  base_url ++ "/" ++ Urllib.quote db "".

Definition get_db (base_url db : string) : request :=
  {| rq_method := GET; rq_url := db_path base_url db; rq_params := [];
     rq_headers := accept_json; rq_body := NoBody |}.

Definition put_db (base_url db : string) : request :=
  {| rq_method := PUT; rq_url := db_path base_url db; rq_params := [];
     rq_headers := accept_json; rq_body := Content "" |}.

Definition ensure_db_exists (W : World) (base_url db : string) : M unit :=
  (_ <- lift (validate_db_name (PyStr db)) ;;
   get_res <- send W (get_db base_url db) ;;
   if Z.eqb (status_code get_res) 200 then ret tt
   else if status_in (status_code get_res) [401; 403]%Z
   then raise (RuntimeError "Unauthorized to access CouchDB. Check credentials/URL.")
   else if negb (status_in (status_code get_res) [404]%Z)
   then raise (RuntimeError ("Failed to query DB: " ++ Z_to_string (status_code get_res)
                               ++ " " ++ text get_res))
   else
     put_res <- send W (put_db base_url db) ;;
     if status_in (status_code put_res) [200; 201; 202; 412]%Z then ret tt
     else if status_in (status_code put_res) [401; 403]%Z
     then raise (RuntimeError "Unauthorized to create DB. Check credentials/URL.")
     else raise (RuntimeError ("Failed to ensure DB exists: "
                                 ++ Z_to_string (status_code put_res)
                                 ++ " " ++ text put_res)))%handler.

Definition alphabet : string :=
  "23456789ABCDEFGHJKLMNPQRSTUVWXYZabcdefghjkmnpqrstuvwxyz".

(** The generator expression joined by [generate_short_id]: one
    [secrets.choice] per position, left to right. *)
Fixpoint choices (W : World) (n : nat) : M string :=
  match n with
  | O => ret ""
  | S n' =>
      (c <- secrets_choice W (list_ascii_of_string alphabet) ;;
       s <- choices W n' ;;
       ret (String c s))%handler
  end.

Definition default_length : nat := 7.

Definition generate_short_id (W : World) (length : nat) : M string :=
  choices W length.

(** The dict display of [create_entry]: every entry with the value its
    expression evaluates to, in source order. *)
Definition doc_display (payload : pyval) (now_iso doc_id : string)
  : list (string * result pyval) :=
  [ ("_id", Ok (PyStr doc_id));
    ("type", Ok (PyStr "entry"));
    ("entryType", Py.getattr payload "entryType");
    ("category", Py.getattr payload "category");
    ("amount", Py.getattr payload "amount");
    ("currency", (v <~ Py.getattr payload "currency" ;; Ok (Py.or_ v (PyStr "PKR")))%result);
    ("paymentMethod",
      (v <~ Py.getattr payload "paymentMethod" ;; Ok (Py.or_ v (PyStr "cash")))%result);
    ("notes", Py.getattr payload "notes");
    ("createdAt", (v <~ Py.getattr payload "date" ;; Ok (Py.or_ v (PyStr now_iso)))%result);
    ("recordedBy", Py.getattr payload "recordedBy");
    ("deviceId", Py.getattr payload "deviceId");
    ("syncStatus", Ok (PyStr "local"));
    ("meta", (c <~ Py.getattr payload "meta" ;;
              if Py.truthy c
              then (m <~ Py.getattr payload "meta" ;; Py.model_dump m)
              else Ok PyNone)%result) ].

(** Evaluation of a dict display: entries left to right, the first
    exception ends it. *)
Fixpoint eval_display (entries : list (string * result pyval))
  : result (list (string * pyval)) :=
  match entries with
  | [] => Ok []
  | (k, r) :: rest =>
      (v <~ r ;; d <~ eval_display rest ;; Ok ((k, v) :: d))%result
  end.

(** The value that the display gives to one key. *)
Fixpoint entry (key : string) (entries : list (string * result pyval))
  : option (result pyval) :=
  match entries with
  | [] => None
  | (k, r) :: rest => if String.eqb key k then Some r else entry key rest
  end.

Definition post_doc (cfg : config) (doc : pyval) : request :=
  {| rq_method := POST; rq_url := base_url cfg ++ "/" ++ db cfg; rq_params := [];
     rq_headers := []; rq_body := Json doc |}.

Definition now_iso (W : World) : string := isoformat_milliseconds (utcnow W) ++ "Z".

Definition doc_id_of (short_id : string) : string := "#" ++ short_id.

(** The handler body. [client.post(url, json=doc)] encodes the document
    before anything is sent, so a document that cannot be encoded raises
    with no request made. The route re-validates the returned dict against
    the response model and serialises it by alias, which leaves a document
    built from a valid instance as it is. *)
Definition create_entry (W : World) (payload : pyval) : M pyval :=
  (cfg <- lift (get_couch_config W) ;;
   short_id <- generate_short_id W 7 ;;
   d <- lift (eval_display (doc_display payload (now_iso W) (doc_id_of short_id))) ;;
   _ <- lift (Json.dumps (PyDict d)) ;;
   res <- send W (post_doc cfg (PyDict d)) ;;
   if negb (status_in (status_code res) [200; 201; 202]%Z)
   then raise (HTTPException 500 ("CouchDB error: " ++ text res))
   else ret (PyDict d))%handler.

(** The route [POST /entries]: the body is validated into the create model
    and the handler runs on the instance. *)
Definition POST_entries (W : World) (b : Models.body) : M pyval :=
  (payload <- lift (Models.EntryCreate_validate b) ;;
   create_entry W (Models.EntryCreate_instance payload))%handler.

Definition opt_param (name : string) (v : option Z) : list (string * string) :=
  match v with
  | Some z => [(name, Z_to_string z)]
  | None => []
  end.

Definition all_docs (cfg : config) (limit skip : option Z) : request :=
  {| rq_method := GET; rq_url := base_url cfg ++ "/" ++ db cfg ++ "/_all_docs";
     rq_params := ("include_docs", "true") :: opt_param "limit" limit ++ opt_param "skip" skip;
     rq_headers := accept_json; rq_body := NoBody |}.

(** The loop of [list_entries] over the rows, [docs] being the list built
    so far. *)
Fixpoint collect (rows : list pyval) (docs : list pyval) : result (list pyval) :=
  match rows with
  | [] => Ok docs
  | row :: rows' =>
      (doc <~ Py.get row "doc" PyNone ;;
       keep <~ (if Py.is_dict doc
                then (t <~ Py.get doc "type" PyNone ;; Ok (Py.eq_str t "entry"))
                else Ok false) ;;
       collect rows' (if keep then docs ++ [doc] else docs))%result
  end.

Definition response_json (res : response) : result pyval :=
  match json res with
  | inl v => Ok v
  | inr msg => Raise (JSONDecodeError msg)
  end.

Definition list_entries (W : World) (limit skip : option Z) : M (list pyval) :=
  reraise
    (cfg <- lift (get_couch_config W) ;;
     _ <- ensure_db_exists W (base_url cfg) (db cfg) ;;
     res <- send W (all_docs cfg limit skip) ;;
     if negb (Z.eqb (status_code res) 200)
     then raise (HTTPException 500 ("CouchDB error: " ++ text res))
     else
       data <- lift (response_json res) ;;
       rows <- lift (Py.get data "rows" (PyList [])) ;;
       items <- lift (Py.iter rows) ;;
       lift (collect items []))%handler
    (fun e => HTTPException 500 ("Error: " ++ exn_str e)).

Definition start : state := {| trace := []; draws := 0 |}.

(** The exception of reading [date] off an instance of the create model. *)
Definition no_date : exn := AttributeError "'EntryCreate' object has no attribute 'date'".

(** ** The specification's vocabulary

    Definitions that follow the words of the specification, against which
    the code above is compared. *)

Module Spec.

Fixpoint all (P : ascii -> bool) (s : string) : bool :=
  match s with
  | EmptyString => true
  | String c s' => P c && all P s'
  end.

Definition starts_with (P : ascii -> bool) (s : string) : bool :=
  match s with
  | EmptyString => false
  | String c _ => P c
  end.

Fixpoint ends_with (P : ascii -> bool) (s : string) : bool :=
  match s with
  | EmptyString => false
  | String c EmptyString => P c
  | String _ s' => ends_with P s'
  end.

(** The name grammar: one lowercase ASCII letter, then zero or more
    characters among a-z, 0-9 and the seven signs. *)
Definition lowercase (c : ascii) : bool :=
  (97 <=? nat_of_ascii c)%nat && (nat_of_ascii c <=? 122)%nat.

Definition digit (c : ascii) : bool :=
  (48 <=? nat_of_ascii c)%nat && (nat_of_ascii c <=? 57)%nat.

Definition name_char (c : ascii) : bool :=
  lowercase c || digit c || Py.one_of "_$()+-/" c.

Definition name_grammar (s : string) : bool :=
  match s with
  | EmptyString => false
  | String c rest => lowercase c && all name_char rest
  end.

(** The input of the name validator is in the grammar. *)
Definition valid_name (v : pyval) : bool :=
  match v with
  | PyStr s => name_grammar s
  | _ => false
  end.

(** First non-empty value of a chain of variables, else the default. *)
Fixpoint first_non_empty (candidates : list (option string)) (default : string) : string :=
  match candidates with
  | [] => default
  | Some s :: rest => if String.eqb s "" then first_non_empty rest default else s
  | None :: rest => first_non_empty rest default
  end.

(** [t] is [s] with the characters of [P] trimmed from both ends. *)
Definition Trimmed (P : ascii -> bool) (s t : string) : Prop :=
  exists l r, s = l ++ t ++ r /\ all P l = true /\ all P r = true /\
              starts_with P t = false /\ ends_with P t = false.

(** [t] is [s] with the characters of [P] trimmed from its end. *)
Definition RTrimmed (P : ascii -> bool) (s t : string) : Prop :=
  exists r, s = t ++ r /\ all P r = true /\ ends_with P t = false.

(** The error kinds, as the code tells them apart: by the message of the
    exception it raises. [InvalidName] is the ConfigError of the name
    validator. *)
Definition ConfigError (e : exn) : Prop :=
  exists msg, e = HTTPException 500 ("Config error: " ++ msg).

Definition InvalidName (e : exn) : Prop :=
  e = RuntimeError "COUCHDB_DB (or NEXT_PUBLIC_DB_NAME) is empty or invalid" \/
  e = RuntimeError "Invalid CouchDB database name. Use lowercase a-z, 0-9, and _$()+-/".

Definition AuthError (e : exn) : Prop :=
  exists what, e = RuntimeError ("Unauthorized to " ++ what ++ ". Check credentials/URL.").

Definition StoreError (status : Z) (body : string) (e : exn) : Prop :=
  exists what, e = RuntimeError (what ++ ": " ++ Z_to_string status ++ " " ++ body).

(** The document embedded in a row of a listing, and whether a document
    is an object whose type is entry. *)
Definition embedded_doc (row : pyval) : option pyval :=
  match row with
  | PyDict d => Py.assoc "doc" d
  | _ => None
  end.

Definition is_entry (doc : pyval) : bool :=
  match doc with
  | PyDict d =>
      match Py.assoc "type" d with
      | Some (PyStr t) => String.eqb t "entry"
      | _ => false
      end
  | _ => false
  end.

Definition keeps (row : pyval) : bool :=
  match embedded_doc row with
  | Some doc => is_entry doc
  | None => false
  end.

(** The documents of the rows that are kept, in the order of the rows. *)
Definition entry_docs (rows : list pyval) : list pyval :=
  flat_map (fun row => match embedded_doc row with
                       | Some doc => if is_entry doc then [doc] else []
                       | None => []
                       end) rows.

(** The string spelled by [n] uniform draws among the 55 positions of
    the alphabet, starting at draw number [from]. *)
Definition drawn (W : World) (from n : nat) : string :=
  string_of_list_ascii
    (map (fun k => nth (entropy W (from + k) mod 55)
                       (list_ascii_of_string alphabet) "000"%char)
         (seq 0 n)).

(** Bounds that the fields of every [datetime] object meet; they are what
    the widths of the format need. *)
Definition valid_datetime (dt : datetime) : Prop :=
  (year dt < 10000 /\ month dt < 100 /\ day dt < 100 /\ hour dt < 100 /\
   minute dt < 100 /\ second dt < 100 /\ microsecond dt < 1000000)%N.

(** Characters that are easily mistaken for one another. *)
Definition ambiguous : string := "0O1Il".

End Spec.

(** ** Concrete inputs *)

Definition newline : string := String "010"%char "".

Module Examples.

Definition response_of (sc : Z) (body : string) : response :=
  {| status_code := sc; text := body; json := inr "Expecting value" |}.

Definition noon : datetime :=
  {| year := 2024; month := 1; day := 2; hour := 3; minute := 4; second := 5;
     microsecond := 6789 |}.

Definition env (vars : list (string * string)) (name : string) : option string :=
  match find (fun kv => String.eqb name (fst kv)) vars with
  | Some kv => Some (snd kv)
  | None => None
  end.

(** A store with no database yet: GET answers 404, PUT creates (201),
    POST is accepted (201). *)
Definition fresh_store (_ : list exchange) (rq : request) : http_result :=
  match rq_method rq with
  | GET => Answered (response_of 404 "not_found")
  | PUT => Answered (response_of 201 "ok")
  | POST => Answered (response_of 201 "ok")
  end.

Definition world (vars : list (string * string))
           (st : list exchange -> request -> http_result) : World :=
  {| getenv := env vars; utcnow := noon; entropy := fun n => 10 * n + 3; store := st |}.

Definition local : list (string * string) := [("COUCHDB_URL", "http://localhost:5984/")].

Definition body_of (entryType category : string) (amount : float)
           (currency : option string) (extra : list (string * pyval)) : Models.body :=
  {| Models.b_entryType := Some entryType; Models.b_category := Some category;
     Models.b_amount := Some amount; Models.b_currency := currency;
     Models.b_paymentMethod := None; Models.b_notes := None;
     Models.b_recordedBy := None; Models.b_deviceId := None;
     Models.b_meta := None; Models.b_extra := extra |}.

(** The body of the end-to-end example, and variants of it. *)
Definition food : Models.body := body_of "expense" "food" 12.5%float None [].
Definition food_empty_currency : Models.body :=
  body_of "expense" "food" 12.5%float (Some "") [].
Definition food_dated : Models.body :=
  body_of "expense" "food" 12.5%float None [("date", PyStr "2024-05-06T07:08:09.000Z")].

Definition food_payload : Models.EntryCreate :=
  {| Models.entryType := "expense"; Models.category := "food";
     Models.amount := 12.5%float; Models.currency := "PKR";
     Models.paymentMethod := "cash"; Models.notes := None;
     Models.recordedBy := "manual"; Models.deviceId := None; Models.meta := None |}.

(** An object that offers every attribute the handler reads, [date]
    included; no instance of the create model is of this shape. *)
Definition dated_object : pyval :=
  PyObj "Dated"
    [("entryType", PyStr "income"); ("category", PyStr "salary");
     ("amount", PyFloat 100%float); ("currency", PyStr "USD");
     ("paymentMethod", PyStr ""); ("notes", PyNone);
     ("recordedBy", PyStr "manual"); ("deviceId", PyNone); ("meta", PyNone);
     ("date", PyStr "2024-05-06T07:08:09.000Z")].

(** A world with the local configuration and the fresh store. *)
Definition fresh : World := world local fresh_store.

Definition local_cfg : config := {| base_url := "http://localhost:5984"; db := "fintech" |}.

Definition entry_doc (id : string) : pyval :=
  PyDict [("_id", PyStr id); ("type", PyStr "entry"); ("entryType", PyStr "expense")].

(** Five rows: an entry, a design document, a row without document, a
    row whose document is not an object, and a second entry. *)
Definition mixed_rows : list pyval :=
  [ PyDict [("id", PyStr "#23456AB"); ("doc", entry_doc "#23456AB")];
    PyDict [("id", PyStr "_design/x"); ("doc", PyDict [("_id", PyStr "_design/x")])];
    PyDict [("id", PyStr "gone")];
    PyDict [("id", PyStr "odd"); ("doc", PyStr "entry")];
    PyDict [("id", PyStr "zzzzzzz"); ("doc", entry_doc "zzzzzzz")] ].

Definition listing : response :=
  {| status_code := 200; text := "{...}";
     json := inl (PyDict [("total_rows", PyInt 5); ("offset", PyInt 0);
                          ("rows", PyList mixed_rows)]) |}.

(** A store whose database exists and holds [mixed_rows]. *)
Definition listing_store (_ : list exchange) (rq : request) : http_result :=
  if String.eqb (rq_url rq) "http://localhost:5984/fintech/_all_docs"
  then Answered listing
  else Answered (response_of 200 "{}").

End Examples.

(** ** Further vocabulary and inputs *)

Module Derived.

(** The characters that [quote] writes when no character is declared
    safe: the unreserved ones and the percent sign. *)
Definition url_safe (c : ascii) : bool :=
  Py.one_of Urllib.always_safe c || Ascii.eqb c "%"%char.

(** The attributes that the dict display of [create_entry] reads. *)
Definition attributes_read : list string :=
  ["entryType"; "category"; "amount"; "currency"; "paymentMethod"; "notes";
   "date"; "recordedBy"; "deviceId"; "meta"].

(** An instance written back as a body that gives every field. *)
Definition as_body (p : Models.EntryCreate) (extra : list (string * pyval)) : Models.body :=
  {| Models.b_entryType := Some (Models.entryType p);
     Models.b_category := Some (Models.category p);
     Models.b_amount := Some (Models.amount p);
     Models.b_currency := Some (Models.currency p);
     Models.b_paymentMethod := Some (Models.paymentMethod p);
     Models.b_notes := Models.notes p;
     Models.b_recordedBy := Some (Models.recordedBy p);
     Models.b_deviceId := Models.deviceId p;
     Models.b_meta := Models.meta p;
     Models.b_extra := extra |}.

(** An exchange of the ensurer or of the listing: never a POST. *)
Definition reads_or_creates (ev : exchange) : bool :=
  match rq_method (fst ev) with
  | POST => false
  | _ => true
  end.

(** What the [except] clause of [list_entries] raises for an exception. *)
Definition boundary (e : exn) : exn := HTTPException 500 ("Error: " ++ exn_str e).

(** The documents that [list_entries] reads off an answer with status 200. *)
Definition listed (res : response) : result (list pyval) :=
  (data <~ response_json res ;;
   rows <~ Py.get data "rows" (PyList []) ;;
   items <~ Py.iter rows ;;
   collect items [])%result.

(** The keys of the document, in the order of the dict display. *)
Definition document_keys : list string :=
  ["_id"; "type"; "entryType"; "category"; "amount"; "currency"; "paymentMethod";
   "notes"; "createdAt"; "recordedBy"; "deviceId"; "syncStatus"; "meta"].

(** The attributes whose value goes into the document as it is. *)
Definition copied : list string :=
  ["entryType"; "category"; "amount"; "notes"; "recordedBy"; "deviceId"].

(** The characters that [quote] leaves as they are. *)
Definition unreserved (c : ascii) : bool := Py.one_of Urllib.always_safe c.

End Derived.

Module Scenarios.

(** No variable is set. *)
Definition bare : World := Examples.world [] Examples.fresh_store.

(** The database name is set, to blanks. *)
Definition blank_name : World :=
  Examples.world [("COUCHDB_URL", "http://localhost:5984"); ("COUCHDB_DB", "  ")]
    Examples.fresh_store.

(** The primary URL variable holds blanks, the fallback a URL. *)
Definition blank_url : World :=
  Examples.world [("COUCHDB_URL", "   "); ("NEXT_PUBLIC_COUCHDB_URL", "http://localhost:5984")]
    Examples.fresh_store.

(** The URL is a lone slash. *)
Definition slash_url : World := Examples.world [("COUCHDB_URL", "/")] Examples.fresh_store.

(** A store that refuses every request with 409. *)
Definition refusing_store (_ : list exchange) (_ : request) : http_result :=
  Answered (Examples.response_of 409 "conflict").

Definition refusing : World := Examples.world Examples.local refusing_store.

(** A store whose database exists and whose listing is broken (503). *)
Definition broken_listing_store (_ : list exchange) (rq : request) : http_result :=
  if String.eqb (rq_url rq) "http://localhost:5984/fintech/_all_docs"
  then Answered (Examples.response_of 503 "unavailable")
  else Answered (Examples.response_of 200 "{}").

Definition broken_listing : World := Examples.world Examples.local broken_listing_store.

(** A listing whose second row is not an object. *)
Definition odd_rows : list pyval :=
  [ PyDict [("id", PyStr "#23456AB"); ("doc", Examples.entry_doc "#23456AB")];
    PyNone;
    PyDict [("id", PyStr "zzzzzzz"); ("doc", Examples.entry_doc "zzzzzzz")] ].

Definition odd_listing : response :=
  {| status_code := 200; text := "{...}"; json := inl (PyDict [("rows", PyList odd_rows)]) |}.

Definition odd_listing_store (_ : list exchange) (rq : request) : http_result :=
  if String.eqb (rq_url rq) "http://localhost:5984/fintech/_all_docs"
  then Answered odd_listing
  else Answered (Examples.response_of 200 "{}").

Definition odd : World := Examples.world Examples.local odd_listing_store.

(** A store that rejects the credentials. *)
Definition locked_store (_ : list exchange) (_ : request) : http_result :=
  Answered (Examples.response_of 401 "unauthorized").

Definition locked : World := Examples.world Examples.local locked_store.

(** A database name with a slash, which the grammar allows. *)
Definition nested : World :=
  Examples.world [("COUCHDB_URL", "http://localhost:5984"); ("COUCHDB_DB", "team/ledger")]
    Examples.fresh_store.

(** An object with every attribute the handler reads, whose amount is
    not a number. *)
Definition dated_nan : pyval :=
  PyObj "Dated"
    [("entryType", PyStr "income"); ("category", PyStr "salary");
     ("amount", PyFloat PrimFloat.nan); ("currency", PyStr "USD");
     ("paymentMethod", PyStr "cash"); ("notes", PyNone);
     ("recordedBy", PyStr "manual"); ("deviceId", PyNone); ("meta", PyNone);
     ("date", PyStr "2024-05-06T07:08:09.000Z")].

(** A body with voice metadata. *)
Definition spoken : Models.body :=
  {| Models.b_entryType := Some "income"; Models.b_category := Some "salary";
     Models.b_amount := Some 100%float; Models.b_currency := Some "USD";
     Models.b_paymentMethod := Some ""; Models.b_notes := Some "may";
     Models.b_recordedBy := Some "voice"; Models.b_deviceId := None;
     Models.b_meta := Some {| Models.voiceText := Some "salary one hundred";
                              Models.asrConfidence := Some 0.5%float;
                              Models.lang := None |};
     Models.b_extra := [("syncStatus", PyStr "synced")] |}.

Definition spoken_payload : Models.EntryCreate :=
  {| Models.entryType := "income"; Models.category := "salary";
     Models.amount := 100%float; Models.currency := "USD";
     Models.paymentMethod := ""; Models.notes := Some "may";
     Models.recordedBy := "voice"; Models.deviceId := None;
     Models.meta := Some {| Models.voiceText := Some "salary one hundred";
                            Models.asrConfidence := Some 0.5%float;
                            Models.lang := None |} |}.

End Scenarios.

(** * Properties *)

(** ** Strings *)

Lemma append_nil_r (s : string) : s ++ "" = s.
Proof. induction s as [|c s IH]; simpl; [reflexivity | now rewrite IH]. Qed.

Lemma append_assoc (a b c : string) : (a ++ b) ++ c = a ++ b ++ c.
Proof. induction a as [|x a IH]; simpl; [reflexivity | now rewrite IH]. Qed.

Lemma length_append (a b : string) :
  String.length (a ++ b) = String.length a + String.length b.
Proof. induction a as [|x a IH]; simpl; [reflexivity | now rewrite IH]. Qed.

Lemma all_append (P : ascii -> bool) (a b : string) :
  Spec.all P (a ++ b) = Spec.all P a && Spec.all P b.
Proof.
  induction a as [|x a IH]; simpl; [reflexivity|].
  now rewrite IH, andb_assoc.
Qed.

(** ** The name validator *)

Lemma class_is_name_char (c : ascii) : Re.cset_mem rest_class c = Spec.name_char c.
Proof. destruct c as [[] [] [] [] [] [] [] []]; reflexivity. Qed.

Lemma first_is_lowercase (c : ascii) :
  Re.cset_mem first_class c = Spec.lowercase c.
Proof. destruct c as [[] [] [] [] [] [] [] []]; reflexivity. Qed.

Lemma newline_not_name_char : Spec.name_char "010"%char = false.
Proof. reflexivity. Qed.

Lemma at_eol_iff (rest : string) :
  Re.at_eol rest = true <-> rest = "" \/ rest = newline.
Proof.
  unfold newline. destruct rest as [|c [|d rest]]; simpl.
  - split; auto.
  - rewrite Ascii.eqb_eq. split.
    + intros ->. now right.
    + intros [H|H]; [discriminate | now inversion H].
  - split; [discriminate | intros [H|H]; discriminate].
Qed.

(** One step of the greedy star followed by the end anchor. *)
Lemma star_eol_step (bos : bool) (c : ascii) (rest : string) :
  Re.run [Re.Star rest_class; Re.Eol] bos (String c rest) =
  (Re.cset_mem rest_class c && Re.run [Re.Star rest_class; Re.Eol] false rest)
  || (Re.at_eol (String c rest) && true).
Proof. reflexivity. Qed.

(** The tail of the pattern accepts a run of name characters, optionally
    followed by one final newline. *)
Lemma star_eol_iff (rest : string) (bos : bool) :
  Re.run [Re.Star rest_class; Re.Eol] bos rest = true <->
  exists body tail, rest = body ++ tail /\ Spec.all Spec.name_char body = true /\
                    (tail = "" \/ tail = newline).
Proof.
  revert bos. induction rest as [|c rest IH]; intros bos.
  - split.
    + intros _. exists "", "". auto.
    + intros _. reflexivity.
  - rewrite star_eol_step, orb_true_iff, andb_true_iff, andb_true_r.
    rewrite class_is_name_char, IH, at_eol_iff. split.
    + intros [[Hc (body & tail & -> & Hall & Htail)] | Hend].
      * exists (String c body), tail. simpl. rewrite Hc, Hall. auto.
      * exists "", (String c rest). simpl. auto.
    + intros (body & tail & Heq & Hall & Htail).
      destruct body as [|b body]; simpl in *.
      * right. subst tail. exact Htail.
      * injection Heq as -> ->. apply andb_true_iff in Hall as [Hb Hall].
        left. split; [exact Hb|]. exists body, tail. auto.
Qed.

Lemma matches_iff (s : string) :
  Re.matches db_name_pattern s = true <->
  exists c body tail, s = String c (body ++ tail) /\ Spec.lowercase c = true /\
                      Spec.all Spec.name_char body = true /\
                      (tail = "" \/ tail = newline).
Proof.
  destruct s as [|c rest].
  - split; [discriminate | intros (c & b & t & H & _); discriminate].
  - assert (Re.matches db_name_pattern (String c rest) =
            Re.cset_mem first_class c
            && Re.run [Re.Star rest_class; Re.Eol] false rest) as -> by reflexivity.
    rewrite andb_true_iff, first_is_lowercase, star_eol_iff. split.
    + intros [Hc (body & tail & -> & H)]. exists c, body, tail. tauto.
    + intros (c' & body & tail & Heq & Hc & H). injection Heq as -> ->.
      split; [exact Hc|]. exists body, tail. tauto.
Qed.

(** What the validator accepts: the names of the grammar, and those
    names followed by one newline. *)
Lemma validate_db_name_accepts (s : string) :
  validate_db_name (PyStr s) = Ok tt <->
  Spec.name_grammar s = true \/
  exists t, s = t ++ newline /\ Spec.name_grammar t = true.
Proof.
  unfold validate_db_name.
  destruct (String.eqb_spec s "") as [->|Hne].
  - split; [discriminate|]. intros [H | (t & H & _)]; [discriminate|].
    destruct t; discriminate.
  - destruct (Re.matches db_name_pattern s) eqn:Hm; simpl.
    + split; [intros _ | reflexivity].
      apply matches_iff in Hm as (c & body & tail & -> & Hc & Hall & [-> | ->]).
      * left. simpl. now rewrite append_nil_r, Hc, Hall.
      * right. exists (String c body). split; [reflexivity|].
        simpl. now rewrite Hc, Hall.
    + split; [discriminate|]. intros H. exfalso.
      assert (Re.matches db_name_pattern s = true) as Hm'; [|congruence].
      apply matches_iff. destruct H as [H | (t & -> & H)].
      * destruct s as [|c rest]; [discriminate|]. simpl in H.
        apply andb_true_iff in H as [Hc Hall].
        exists c, rest, "". rewrite append_nil_r. auto.
      * destruct t as [|c rest]; [discriminate|]. simpl in H.
        apply andb_true_iff in H as [Hc Hall].
        exists c, rest, newline. auto.
Qed.

Lemma grammar_rejects_trailing_newline (t : string) :
  Spec.name_grammar (t ++ newline) = false.
Proof.
  destruct t as [|c t]; [reflexivity|].
  cbn [append Spec.name_grammar]. rewrite all_append.
  change (Spec.all Spec.name_char newline) with false.
  now rewrite !andb_false_r.
Qed.

(** ** [urllib.parse.quote] *)

Lemma quote_append (a b safe : string) :
  Urllib.quote (a ++ b) safe = Urllib.quote a safe ++ Urllib.quote b safe.
Proof.
  induction a as [|c a IH]; simpl; [reflexivity|].
  now rewrite IH, append_assoc.
Qed.

(** ** The handler monad *)

Lemma trace_grows_not (l : list exchange) (x : exchange) (rest : list exchange) :
  l <> (l ++ x :: rest)%list.
Proof.
  intros H. apply (f_equal (@List.length _)) in H.
  rewrite List.length_app in H. simpl in H. lia.
Qed.

(** With a name that the validator accepts, the ensurer starts with the GET
    of the database path. *)
Lemma ensure_db_exists_sends_get (W : World) (base db : string) (st : state) :
  validate_db_name (PyStr db) = Ok tt ->
  exists a rest,
    store W (trace st) (get_db base db) = a /\
    trace (snd (ensure_db_exists W base db st)) = (trace st ++ (get_db base db, a) :: rest)%list.
Proof.
  intros Hv. unfold ensure_db_exists, bind, lift. rewrite Hv.
  unfold send at 1. cbv zeta.
  destruct (store W (trace st) (get_db base db)) as [g|msg] eqn:Hg.
  - exists (Answered g).
    destruct (status_code g =? 200)%Z; [exists []; auto|].
    destruct (status_in (status_code g) [401; 403]%Z); [exists []; auto|].
    destruct (negb (status_in (status_code g) [404]%Z)); [exists []; auto|].
    unfold send, raise, ret. cbv zeta. cbn [trace].
    match goal with |- context [store W ?t ?r] => destruct (store W t r) as [p|m] end.
    + eexists. split; [reflexivity|].
      destruct (status_in (status_code p) [200; 201; 202; 412]%Z);
        [|destruct (status_in (status_code p) [401; 403]%Z)];
        cbn [snd trace]; rewrite <- List.app_assoc; reflexivity.
    + eexists. split; [reflexivity|].
      cbn [snd trace]. rewrite <- List.app_assoc. reflexivity.
  - exists (Failed msg), []. auto.
Qed.

(** With a name that the validator rejects, the ensurer sends nothing. *)
Lemma ensure_db_exists_invalid_name (W : World) (base db : string) (st : state) (e : exn) :
  validate_db_name (PyStr db) = Raise e ->
  ensure_db_exists W base db st = (Raise e, st).
Proof.
  intros Hv. unfold ensure_db_exists, bind, lift. now rewrite Hv.
Qed.

(** The ensurer once its GET has been answered. *)
Lemma ensure_db_exists_after_get (W : World) (base db : string) (st : state) (g : response) :
  validate_db_name (PyStr db) = Ok tt ->
  store W (trace st) (get_db base db) = Answered g ->
  let st1 := {| trace := trace st ++ [(get_db base db, Answered g)]; draws := draws st |} in
  ensure_db_exists W base db st =
  if (status_code g =? 200)%Z then (Ok tt, st1)
  else if status_in (status_code g) [401; 403]%Z
  then (Raise (RuntimeError "Unauthorized to access CouchDB. Check credentials/URL."), st1)
  else if negb (status_in (status_code g) [404]%Z)
  then (Raise (RuntimeError ("Failed to query DB: " ++ Z_to_string (status_code g)
                               ++ " " ++ text g)), st1)
  else
    let a := store W (trace st1) (put_db base db) in
    let st2 := {| trace := trace st1 ++ [(put_db base db, a)]; draws := draws st |} in
    match a with
    | Answered p =>
        if status_in (status_code p) [200; 201; 202; 412]%Z then (Ok tt, st2)
        else if status_in (status_code p) [401; 403]%Z
        then (Raise (RuntimeError "Unauthorized to create DB. Check credentials/URL."), st2)
        else (Raise (RuntimeError ("Failed to ensure DB exists: "
                                     ++ Z_to_string (status_code p) ++ " " ++ text p)), st2)
    | Failed msg => (Raise (TransportError msg), st2)
    end.
Proof.
  intros Hv Hg st1. unfold ensure_db_exists, bind, lift. rewrite Hv.
  unfold send at 1. cbv zeta. rewrite Hg. fold st1.
  destruct (status_code g =? 200)%Z; [reflexivity|].
  destruct (status_in (status_code g) [401; 403]%Z); [reflexivity|].
  destruct (negb (status_in (status_code g) [404]%Z)); [reflexivity|].
  unfold send. cbv zeta.
  destruct (store W (trace st1) (put_db base db)) as [p|msg]; [|reflexivity].
  destruct (status_in (status_code p) [200; 201; 202; 412]%Z); [reflexivity|].
  destruct (status_in (status_code p) [401; 403]%Z); reflexivity.
Qed.

Lemma status_in_iff (sc : Z) (codes : list Z) :
  status_in sc codes = true <-> In sc codes.
Proof.
  unfold status_in. rewrite existsb_exists. split.
  - intros (x & Hin & Heq). apply Z.eqb_eq in Heq. now subst.
  - intros Hin. exists sc. split; [exact Hin | apply Z.eqb_refl].
Qed.

Lemma status_in_false (sc : Z) (codes : list Z) :
  status_in sc codes = false <-> ~ In sc codes.
Proof.
  rewrite <- status_in_iff. destruct (status_in sc codes); split; congruence.
Qed.

Lemma AuthError_access :
  Spec.AuthError (RuntimeError "Unauthorized to access CouchDB. Check credentials/URL.").
Proof. now exists "access CouchDB". Qed.

Lemma AuthError_create :
  Spec.AuthError (RuntimeError "Unauthorized to create DB. Check credentials/URL.").
Proof. now exists "create DB". Qed.

Lemma StoreError_query (sc : Z) (body : string) :
  Spec.StoreError sc body
    (RuntimeError ("Failed to query DB: " ++ Z_to_string sc ++ " " ++ body)).
Proof. now exists "Failed to query DB". Qed.

Lemma StoreError_ensure (sc : Z) (body : string) :
  Spec.StoreError sc body
    (RuntimeError ("Failed to ensure DB exists: " ++ Z_to_string sc ++ " " ++ body)).
Proof. now exists "Failed to ensure DB exists". Qed.

(** An exchange list that extends the log by the answered GET tells that
    the name was accepted and how the store answered. *)
Lemma ensure_db_exists_get_answered (W : World) (base db : string) (st : state)
      (g : response) (rest : list exchange) :
  trace (snd (ensure_db_exists W base db st)) =
    (trace st ++ (get_db base db, Answered g) :: rest)%list ->
  validate_db_name (PyStr db) = Ok tt /\
  store W (trace st) (get_db base db) = Answered g.
Proof.
  intros H. destruct (validate_db_name (PyStr db)) as [[]|e] eqn:Hv.
  - split; [reflexivity|].
    destruct (ensure_db_exists_sends_get W base db st Hv) as (a & rest' & Ha & Ht).
    rewrite Ht in H. apply List.app_inv_head in H. injection H as H _. congruence.
  - rewrite (ensure_db_exists_invalid_name W base db st e Hv) in H.
    now apply trace_grows_not in H.
Qed.

(** C4. The Database Existence Ensurer as a state machine over the statuses
    of its exchanges, for every base URL and database name: once its GET of
    the database path is answered, status 200 gives success and no PUT;
    401 or 403 gives an AuthError and no PUT; 404 gives exactly one PUT to
    the same path, which succeeds exactly on 200, 201, 202 and 412, gives an
    AuthError on 401 and 403 and a StoreError with status and body
    otherwise; any other GET status gives a StoreError with status and body
    and no PUT. *)
Theorem ensure_db_exists_state_machine
        (W : World) (base db : string) (st : state) (g : response) (rest : list exchange) :
  trace (snd (ensure_db_exists W base db st)) =
    (trace st ++ (get_db base db, Answered g) :: rest)%list ->
  let r := fst (ensure_db_exists W base db st) in
  let sc := status_code g in
  (sc = 200%Z -> r = Ok tt /\ rest = []) /\
  (sc = 401%Z \/ sc = 403%Z ->
     (exists e, r = Raise e /\ Spec.AuthError e) /\ rest = []) /\
  (sc = 404%Z ->
     exists a, rest = [(put_db base db, a)] /\
               rq_url (put_db base db) = rq_url (get_db base db) /\
               forall p, a = Answered p ->
                 (r = Ok tt <-> In (status_code p) [200; 201; 202; 412]%Z) /\
                 (status_code p = 401%Z \/ status_code p = 403%Z ->
                    exists e, r = Raise e /\ Spec.AuthError e) /\
                 (~ In (status_code p) [200; 201; 202; 412; 401; 403]%Z ->
                    exists e, r = Raise e /\ Spec.StoreError (status_code p) (text p) e)) /\
  (~ In sc [200; 401; 403; 404]%Z ->
     (exists e, r = Raise e /\ Spec.StoreError sc (text g) e) /\ rest = []).
Proof.
  intros H r sc. subst r sc.
  destruct (ensure_db_exists_get_answered W base db st g rest H) as [Hv Hg].
  pose proof (ensure_db_exists_after_get W base db st g Hv Hg) as E.
  cbv zeta in E. rewrite E in H |- *. clear E.
  assert (forall x l, (trace st ++ [x])%list = (trace st ++ x :: l)%list -> l = []) as one.
  { intros x l Hl. apply List.app_inv_head in Hl. now injection Hl. }
  split; [|split; [|split]].
  - intros Hsc. rewrite Hsc in H |- *. cbn in H |- *.
    split; [reflexivity | now apply one in H].
  - intros Hsc.
    assert ((status_code g =? 200)%Z = false) as E1
        by (destruct Hsc as [Hsc|Hsc]; now rewrite Hsc).
    assert (status_in (status_code g) [401; 403]%Z = true) as E2
        by (destruct Hsc as [Hsc|Hsc]; now rewrite Hsc).
    rewrite E1, E2 in H |- *. cbn in H |- *. split.
    + eexists. split; [reflexivity | apply AuthError_access].
    + now apply one in H.
  - intros Hsc. rewrite Hsc in H |- *.
    change (404 =? 200)%Z with false in H |- *.
    change (status_in 404 [401; 403]%Z) with false in H |- *.
    change (negb (status_in 404 [404]%Z)) with false in H |- *.
    cbv iota zeta in H |- *. cbn [trace] in H |- *.
    set (st1 := (trace st ++ [(get_db base db, Answered g)])%list) in *.
    exists (store W st1 (put_db base db)).
    assert (rest = [(put_db base db, store W st1 (put_db base db))]) as Hrest.
    { destruct (store W st1 (put_db base db)) as [p|msg].
      - destruct (status_in (status_code p) [200; 201; 202; 412]%Z);
          [|destruct (status_in (status_code p) [401; 403]%Z)];
          cbn [snd trace] in H; subst st1; rewrite <- List.app_assoc in H;
          apply List.app_inv_head in H; now injection H.
      - cbn [snd trace] in H; subst st1; rewrite <- List.app_assoc in H.
        apply List.app_inv_head in H. now injection H. }
    split; [exact Hrest|]. split; [reflexivity|].
    intros p Hp. rewrite Hp.
    destruct (status_in (status_code p) [200; 201; 202; 412]%Z) eqn:Hok.
    + apply status_in_iff in Hok. cbn [fst]. split; [tauto|]. split.
      * intros [Hp'|Hp']; rewrite Hp' in Hok; cbn in Hok; intuition discriminate.
      * intros Hn. elim Hn. cbn in Hok |- *. intuition.
    + apply status_in_false in Hok.
      destruct (status_in (status_code p) [401; 403]%Z) eqn:Hauth; cbn [fst].
      * apply status_in_iff in Hauth. split; [|split].
        -- split; [discriminate | intros Hin; now elim Hok].
        -- intros _. eexists. split; [reflexivity | apply AuthError_create].
        -- intros Hn. elim Hn. cbn in Hauth |- *. intuition.
      * apply status_in_false in Hauth. split; [|split].
        -- split; [discriminate | intros Hin; now elim Hok].
        -- intros Hp'. elim Hauth. cbn. intuition.
        -- intros _. eexists. split; [reflexivity | apply StoreError_ensure].
  - intros Hn.
    assert ((status_code g =? 200)%Z = false) as E1
        by (apply Z.eqb_neq; intros Heq; apply Hn; rewrite Heq; cbn; auto).
    assert (status_in (status_code g) [401; 403]%Z = false) as E2
        by (apply status_in_false; intros Hin; apply Hn; cbn in Hin |- *; intuition).
    assert (status_in (status_code g) [404]%Z = false) as E3
        by (apply status_in_false; intros Hin; apply Hn; cbn in Hin |- *; intuition).
    rewrite E1, E2, E3 in H |- *. cbn in H |- *. split.
    + eexists. split; [reflexivity | apply StoreError_query].
    + now apply one in H.
Qed.

Lemma ensure_db_exists_state_machine_witness :
  trace (snd (ensure_db_exists (Examples.world Examples.local Examples.fresh_store)
                "http://localhost:5984" "fintech" start)) =
    (trace start
     ++ (get_db "http://localhost:5984" "fintech",
         Answered (Examples.response_of 404 "not_found"))
     :: [(put_db "http://localhost:5984" "fintech",
          Answered (Examples.response_of 201 "ok"))])%list /\
  fst (ensure_db_exists (Examples.world Examples.local Examples.fresh_store)
         "http://localhost:5984" "fintech" start) = Ok tt.
Proof.
  assert (trace (snd (ensure_db_exists (Examples.world Examples.local Examples.fresh_store)
                        "http://localhost:5984" "fintech" start)) =
          (trace start
           ++ (get_db "http://localhost:5984" "fintech",
               Answered (Examples.response_of 404 "not_found"))
           :: [(put_db "http://localhost:5984" "fintech",
                Answered (Examples.response_of 201 "ok"))])%list) as H
      by reflexivity.
  split; [exact H|].
  destruct (ensure_db_exists_state_machine _ _ _ _ _ _ H) as (_ & _ & H404 & _).
  destruct (H404 eq_refl) as (a & Hrest & _ & Hp).
  injection Hrest as <-.
  apply (Hp _ eq_refl). simpl. auto.
Defined.

(** C10. A name of the grammar followed by one newline is outside the
    grammar, yet the validator raises nothing for it (the end anchor of the
    pattern also matches just before a final newline); the ensurer then
    requests the database path with the name percent-encoded, the newline
    as %0A. *)
Theorem validate_db_name_accepts_trailing_newline (t : string) :
  Spec.name_grammar t = true ->
  Spec.name_grammar (t ++ newline) = false /\
  validate_db_name (PyStr (t ++ newline)) = Ok tt /\
  forall (W : World) (base : string) (st : state),
    exists a rest,
      trace (snd (ensure_db_exists W base (t ++ newline) st)) =
        (trace st ++ (get_db base (t ++ newline), a) :: rest)%list /\
      rq_url (get_db base (t ++ newline)) = base ++ "/" ++ Urllib.quote t "" ++ "%0A".
Proof.
  intros Ht.
  assert (validate_db_name (PyStr (t ++ newline)) = Ok tt) as Hv.
  { apply validate_db_name_accepts. right. now exists t. }
  split; [apply grammar_rejects_trailing_newline|]. split; [exact Hv|].
  intros W base st.
  destruct (ensure_db_exists_sends_get W base (t ++ newline) st Hv) as (a & rest & _ & Htr).
  exists a, rest. split; [exact Htr|].
  cbn [get_db rq_url]. unfold db_path. now rewrite quote_append.
Qed.

Lemma validate_db_name_accepts_trailing_newline_witness :
  Spec.name_grammar "fintech" = true /\
  Spec.name_grammar ("fintech" ++ newline) = false /\
  validate_db_name (PyStr ("fintech" ++ newline)) = Ok tt.
Proof.
  split; [reflexivity|].
  destruct (validate_db_name_accepts_trailing_newline "fintech" eq_refl) as (H1 & H2 & _).
  split; [exact H1 | exact H2].
Defined.

(** C5, evaluated on the code. The validator accepts every input of the
    grammar and rejects non-strings, the empty string and the three named
    examples as claimed, but it does not fail exactly outside the grammar:
    the name fintech followed by a newline is outside the grammar and is
    accepted. What it accepts besides the grammar is exactly a name of the
    grammar followed by one newline. *)
Theorem validate_db_name_against_grammar :
  validate_db_name (PyStr "fintech") = Ok tt /\
  (exists e, validate_db_name (PyStr "Fintech") = Raise e /\ Spec.InvalidName e) /\
  (exists e, validate_db_name (PyStr "") = Raise e /\ Spec.InvalidName e) /\
  (exists e, validate_db_name (PyStr "_abc") = Raise e /\ Spec.InvalidName e) /\
  (forall v, Spec.valid_name v = true -> validate_db_name v = Ok tt) /\
  (forall v, validate_db_name v = Ok tt ->
             Spec.valid_name v = true \/
             exists t, v = PyStr (t ++ newline) /\ Spec.name_grammar t = true) /\
  (forall v, validate_db_name v = Ok tt \/
             exists e, validate_db_name v = Raise e /\ Spec.InvalidName e) /\
  Spec.valid_name (PyStr ("fintech" ++ newline)) = false /\
  validate_db_name (PyStr ("fintech" ++ newline)) = Ok tt.
Proof.
  split; [reflexivity|].
  split; [eexists; split; [reflexivity | now right]|].
  split; [eexists; split; [reflexivity | now left]|].
  split; [eexists; split; [reflexivity | now right]|].
  split.
  { intros [] Hv; try discriminate. apply validate_db_name_accepts. now left. }
  split.
  { intros v Hv. destruct v; try discriminate.
    apply validate_db_name_accepts in Hv as [H | (t & -> & H)].
    - now left.
    - right. now exists t. }
  split.
  { intros v. unfold validate_db_name.
    destruct v; try (right; eexists; split; [reflexivity | now left]).
    destruct (s =? ""); [right; eexists; split; [reflexivity | now left]|].
    destruct (negb (Re.matches db_name_pattern s)); [|now left].
    right; eexists; split; [reflexivity | now right]. }
  split; reflexivity.
Qed.

(** ** The config resolver *)

Section Strip.

Variable P : ascii -> bool.

Lemma lstrip_spec (s : string) :
  exists l, s = l ++ Py.lstrip P s /\ Spec.all P l = true /\
            Spec.starts_with P (Py.lstrip P s) = false.
Proof.
  induction s as [|c s (l & Heq & Hall & Hst)]; simpl.
  - exists "". auto.
  - destruct (P c) eqn:Hc.
    + exists (String c l). simpl. rewrite Hc, Hall, <- Heq. auto.
    + exists "". simpl. auto.
Qed.

Lemma rstrip_spec (s : string) :
  exists r, s = Py.rstrip P s ++ r /\ Spec.all P r = true /\
            Spec.ends_with P (Py.rstrip P s) = false.
Proof.
  induction s as [|c s (r & Heq & Hall & Hend)]; simpl.
  - exists "". auto.
  - destruct (Py.rstrip P s) as [|d t] eqn:Hr.
    + simpl in Heq. subst r. destruct (P c) eqn:Hc.
      * exists (String c s). simpl. rewrite Hc, Hall. auto.
      * exists s. simpl. auto.
    + exists r. split; [|split].
      * simpl in Heq |- *. now rewrite <- Heq.
      * exact Hall.
      * exact Hend.
Qed.

Lemma rstrip_keeps_start (s : string) :
  Spec.starts_with P s = false -> Spec.starts_with P (Py.rstrip P s) = false.
Proof.
  destruct s as [|c s]; simpl; [auto|]. intros Hc.
  destruct (Py.rstrip P s); [rewrite Hc|]; simpl; auto.
Qed.

Lemma strip_Trimmed (s : string) : Spec.Trimmed P s (Py.strip P s).
Proof.
  unfold Py.strip.
  destruct (lstrip_spec s) as (l & Hl & Hall & Hst).
  destruct (rstrip_spec (Py.lstrip P s)) as (r & Hr & Hallr & Hend).
  exists l, r. repeat split; auto.
  - now rewrite <- Hr.
  - now apply rstrip_keeps_start.
Qed.

Lemma rstrip_RTrimmed (s : string) : Spec.RTrimmed P s (Py.rstrip P s).
Proof.
  destruct (rstrip_spec s) as (r & Hr & Hall & Hend). exists r. auto.
Qed.

End Strip.

Lemma or_str_chain (a b : option string) (default : string) :
  Py.or_str a (Py.or_str b default) = Spec.first_non_empty [a; b] default.
Proof.
  destruct a as [x|], b as [y|]; simpl;
    repeat match goal with |- context [String.eqb ?u ""] => destruct (String.eqb u "") end;
    reflexivity.
Qed.

(** C8. For every environment the resolver takes the store URL from the
    first non-empty of the two URL variables and the database name from the
    first non-empty of the two name variables, fintech being the last
    resort; the URL is trimmed of whitespace, then of double quotes, then of
    single quotes; the resolver fails, with a ConfigError, exactly when
    nothing is left of the URL, and otherwise returns that URL without its
    trailing slashes together with the trimmed database name. *)
Theorem get_couch_config_resolves (W : World) :
  let url :=
    Spec.first_non_empty [getenv W "COUCHDB_URL"; getenv W "NEXT_PUBLIC_COUCHDB_URL"] "" in
  let name :=
    Spec.first_non_empty [getenv W "COUCHDB_DB"; getenv W "NEXT_PUBLIC_DB_NAME"] "fintech" in
  exists u1 u2 u3,
    Spec.Trimmed Py.isspace url u1 /\
    Spec.Trimmed (Py.one_of double_quote) u1 u2 /\
    Spec.Trimmed (Py.one_of single_quote) u2 u3 /\
    ((exists e, get_couch_config W = Raise e) <-> u3 = "") /\
    (forall e, get_couch_config W = Raise e -> Spec.ConfigError e) /\
    (u3 <> "" ->
     exists base name',
       get_couch_config W = Ok {| base_url := base; db := name' |} /\
       Spec.RTrimmed (Py.one_of "/") u3 base /\
       Spec.Trimmed Py.isspace name name').
Proof.
  intros url name. unfold get_couch_config. rewrite !or_str_chain. fold url name.
  set (u1 := Py.strip Py.isspace url).
  set (u2 := Py.strip (Py.one_of double_quote) u1).
  set (u3 := Py.strip (Py.one_of single_quote) u2).
  exists u1, u2, u3.
  split; [apply strip_Trimmed|]. split; [apply strip_Trimmed|].
  split; [apply strip_Trimmed|].
  destruct (String.eqb_spec u3 "") as [E|E].
  - split; [split; [auto | intros _; eexists; reflexivity]|].
    split.
    + intros e He. injection He as <-. eexists. reflexivity.
    + intros Hne. now elim Hne.
  - split; [split; [intros (e & He); discriminate | intros Hu; now elim E]|].
    split; [intros e He; discriminate|].
    intros _. do 2 eexists. split; [reflexivity|].
    split; [apply rstrip_RTrimmed | apply strip_Trimmed].
Qed.

Lemma ends_with_last (P : ascii -> bool) (t : string) (c : ascii) :
  Spec.ends_with P (t ++ String c "") = P c.
Proof.
  induction t as [|d t IH]; [reflexivity|].
  cbn [append]. destruct t; [reflexivity | exact IH].
Qed.

(** A database name that comes out of the resolver has no trailing
    newline, so on such names the validator accepts the grammar and nothing
    else. *)
Lemma validate_db_name_exact_on_resolved_names (W : World) (cfg : config) :
  get_couch_config W = Ok cfg ->
  (validate_db_name (PyStr (db cfg)) = Ok tt <-> Spec.name_grammar (db cfg) = true).
Proof.
  intros Hcfg. rewrite validate_db_name_accepts. split; [|now left].
  intros [H | (t & Ht & _)]; [exact H | exfalso].
  unfold get_couch_config in Hcfg.
  destruct (String.eqb _ "") in Hcfg; [discriminate|].
  injection Hcfg as <-. cbn [db] in Ht.
  match type of Ht with
  | Py.strip _ ?raw = _ =>
      destruct (strip_Trimmed Py.isspace raw) as (l & r & _ & _ & _ & _ & Hend)
  end.
  rewrite Ht in Hend. unfold newline in Hend. rewrite ends_with_last in Hend.
  discriminate.
Qed.

(** ** Listing *)

Lemma collect_row (d : list (string * pyval)) (rows docs : list pyval) :
  collect (PyDict d :: rows) docs =
  collect rows (docs ++ match Spec.embedded_doc (PyDict d) with
                        | Some doc => if Spec.is_entry doc then [doc] else []
                        | None => []
                        end).
Proof.
  cbn [collect Py.get Spec.embedded_doc rbind].
  destruct (Py.assoc "doc" d) as [doc|]; cbn [rbind].
  - destruct doc; cbn [Py.is_dict rbind Spec.is_entry];
      rewrite ?List.app_nil_r; try reflexivity.
    cbn [Py.get]. destruct (Py.assoc "type" d0) as [t|]; cbn [rbind Py.eq_str].
    + destruct t; cbn [Py.eq_str]; rewrite ?List.app_nil_r; try reflexivity.
      destruct (s =? "entry"); now rewrite ?List.app_nil_r.
    + now rewrite List.app_nil_r.
  - cbn [Py.is_dict rbind]. now rewrite List.app_nil_r.
Qed.

(** The loop keeps, in order, the embedded documents that are entries. *)
Lemma collect_entry_docs (rows docs : list pyval) :
  Forall (fun row => Py.is_dict row = true) rows ->
  collect rows docs = Ok (docs ++ Spec.entry_docs rows)%list.
Proof.
  intros H. revert docs. induction H as [|row rows Hrow _ IH]; intros docs.
  - simpl. now rewrite List.app_nil_r.
  - destruct row; try discriminate.
    rewrite collect_row, IH. cbn [Spec.entry_docs flat_map].
    now rewrite List.app_assoc.
Qed.

(** What the listing keeps and drops, row by row. *)
Lemma entry_docs_In (rows : list pyval) (doc : pyval) :
  In doc (Spec.entry_docs rows) <->
  exists row, In row rows /\ Spec.embedded_doc row = Some doc /\ Spec.is_entry doc = true.
Proof.
  unfold Spec.entry_docs. rewrite in_flat_map. split.
  - intros (row & Hin & Hd). exists row. split; [exact Hin|].
    destruct (Spec.embedded_doc row) as [d|]; [|contradiction].
    destruct (Spec.is_entry d) eqn:He; [|contradiction].
    destruct Hd as [<-|[]]. auto.
  - intros (row & Hin & Hd & He). exists row. split; [exact Hin|].
    rewrite Hd, He. now left.
Qed.

Lemma entry_docs_app (rows1 rows2 : list pyval) :
  Spec.entry_docs (rows1 ++ rows2) = (Spec.entry_docs rows1 ++ Spec.entry_docs rows2)%list.
Proof. apply flat_map_app. Qed.

(** C6. When the listing request is answered with status 200 and a JSON
    object whose rows are objects, the handler succeeds and returns, in the
    order of the rows and with nothing else, the embedded document of every
    row whose document is an object of type entry; a row whose document is
    missing, is not an object or has another type contributes nothing and
    does not make the listing fail. *)
Theorem list_entries_keeps_entry_docs
        (W : World) (limit skip : option Z) (st st1 : state) (cfg : config)
        (res : response) (data : list (string * pyval)) (rows : list pyval) :
  get_couch_config W = Ok cfg ->
  ensure_db_exists W (base_url cfg) (db cfg) st = (Ok tt, st1) ->
  store W (trace st1) (all_docs cfg limit skip) = Answered res ->
  status_code res = 200%Z ->
  json res = inl (PyDict data) ->
  Py.get (PyDict data) "rows" (PyList []) = Ok (PyList rows) ->
  Forall (fun row => Py.is_dict row = true) rows ->
  list_entries W limit skip st =
    (Ok (Spec.entry_docs rows),
     {| trace := trace st1 ++ [(all_docs cfg limit skip, Answered res)];
        draws := draws st1 |}) /\
  (forall doc, In doc (Spec.entry_docs rows) <->
               exists row, In row rows /\ Spec.embedded_doc row = Some doc /\
                           Spec.is_entry doc = true) /\
  (forall before row after, rows = (before ++ row :: after)%list ->
     Spec.entry_docs rows =
       (Spec.entry_docs before
        ++ (if Spec.keeps row then Spec.entry_docs [row] else [])
        ++ Spec.entry_docs after)%list).
Proof.
  intros Hcfg Hens Hst Hsc Hjson Hrows Hdict. split; [|split].
  - unfold list_entries, reraise, bind, lift. rewrite Hcfg, Hens.
    unfold send. cbv zeta. rewrite Hst, Hsc. cbn [Z.eqb Pos.eqb negb].
    unfold response_json. rewrite Hjson, Hrows. cbn [Py.iter].
    now rewrite (collect_entry_docs rows [] Hdict).
  - apply entry_docs_In.
  - intros before row after ->.
    change (before ++ row :: after)%list with (before ++ [row] ++ after)%list.
    rewrite !entry_docs_app. do 2 f_equal.
    unfold Spec.keeps, Spec.entry_docs. cbn [flat_map].
    destruct (Spec.embedded_doc row) as [d|]; [|reflexivity].
    now destruct (Spec.is_entry d).
Qed.

Lemma list_entries_keeps_entry_docs_witness :
  list_entries (Examples.world Examples.local Examples.listing_store) (Some 2%Z) None start =
    (Ok [Examples.entry_doc "#23456AB"; Examples.entry_doc "zzzzzzz"],
     {| trace :=
          [(get_db "http://localhost:5984" "fintech",
            Answered (Examples.response_of 200 "{}"));
           (all_docs Examples.local_cfg (Some 2%Z) None, Answered Examples.listing)];
        draws := 0 |}).
Proof.
  apply (list_entries_keeps_entry_docs
           (Examples.world Examples.local Examples.listing_store) (Some 2%Z) None start
           {| trace := [(get_db "http://localhost:5984" "fintech",
                         Answered (Examples.response_of 200 "{}"))];
              draws := 0 |}
           Examples.local_cfg Examples.listing
           [("total_rows", PyInt 5); ("offset", PyInt 0);
            ("rows", PyList Examples.mixed_rows)]
           Examples.mixed_rows);
    try reflexivity.
  repeat constructor.
Defined.

(** ** The ID generator *)

Lemma choices_spec (W : World) (n : nat) (st : state) :
  choices W n st =
  (Ok (Spec.drawn W (draws st) n), {| trace := trace st; draws := draws st + n |}).
Proof.
  unfold Spec.drawn. revert st. induction n as [|n IH]; intros st.
  - cbn [choices ret seq map string_of_list_ascii]. rewrite Nat.add_0_r. now destruct st.
  - cbn [choices]. unfold bind, secrets_choice. rewrite IH. unfold ret.
    cbn [trace draws seq map string_of_list_ascii].
    rewrite <- seq_shift, map_map, Nat.add_0_r.
    change (List.length (list_ascii_of_string alphabet)) with 55.
    replace (S (draws st) + n) with (draws st + S n) by lia.
    f_equal. f_equal. f_equal. f_equal. apply map_ext.
    intros k. now rewrite Nat.add_succ_r.
Qed.

Lemma alphabet_NoDup : NoDup (list_ascii_of_string alphabet).
Proof.
  assert (nodup ascii_dec (list_ascii_of_string alphabet) = list_ascii_of_string alphabet)
    as <- by (vm_compute; reflexivity).
  apply NoDup_nodup.
Qed.

Lemma one_of_In (chars : string) (c : ascii) :
  Py.one_of chars c = true <-> In c (list_ascii_of_string chars).
Proof.
  unfold Py.one_of. rewrite existsb_exists. split.
  - intros (x & Hin & Heq). apply Ascii.eqb_eq in Heq. now subst.
  - intros Hin. exists c. split; [exact Hin | apply Ascii.eqb_refl].
Qed.

Lemma all_string_of_list (P : ascii -> bool) (l : list ascii) :
  Spec.all P (string_of_list_ascii l) = forallb P l.
Proof. induction l as [|c l IH]; simpl; [reflexivity | now rewrite IH]. Qed.

Lemma length_string_of_list (l : list ascii) :
  String.length (string_of_list_ascii l) = List.length l.
Proof. induction l as [|c l IH]; simpl; [reflexivity | now rewrite IH]. Qed.

Lemma get_string_of_list (l : list ascii) (k : nat) :
  String.get k (string_of_list_ascii l) = nth_error l k.
Proof.
  revert k. induction l as [|c l IH]; intros [|k]; simpl; auto.
Qed.

Lemma drawn_length (W : World) (from n : nat) : String.length (Spec.drawn W from n) = n.
Proof.
  unfold Spec.drawn. now rewrite length_string_of_list, List.length_map, List.length_seq.
Qed.

Lemma drawn_in_alphabet (W : World) (from n : nat) :
  Spec.all (Py.one_of alphabet) (Spec.drawn W from n) = true.
Proof.
  unfold Spec.drawn. rewrite all_string_of_list, forallb_forall.
  intros c Hc. apply in_map_iff in Hc as (k & <- & _).
  apply one_of_In, nth_In.
  change (List.length (list_ascii_of_string alphabet)) with 55.
  apply Nat.mod_upper_bound. discriminate.
Qed.

Lemma drawn_get (W : World) (from n k : nat) :
  k < n ->
  String.get k (Spec.drawn W from n) =
  Some (nth (entropy W (from + k) mod 55) (list_ascii_of_string alphabet) "000"%char).
Proof.
  intros Hk. unfold Spec.drawn. rewrite get_string_of_list.
  rewrite nth_error_map, nth_error_nth' with (d := 0) by now rewrite List.length_seq.
  now rewrite seq_nth.
Qed.

(** Every character of the alphabet stands at exactly one position, so a
    uniform draw of a position is a uniform draw of a character. *)
Lemma alphabet_positions (c : ascii) :
  In c (list_ascii_of_string alphabet) ->
  exists i, (i < 55 /\ nth i (list_ascii_of_string alphabet) "000"%char = c) /\
            forall j, j < 55 /\ nth j (list_ascii_of_string alphabet) "000"%char = c -> j = i.
Proof.
  intros Hin. destruct (In_nth _ _ "000"%char Hin) as (i & Hi & Hc).
  exists i. split; [split; [exact Hi | exact Hc]|].
  intros j [Hj Hcj].
  apply (proj1 (NoDup_nth _ "000"%char) alphabet_NoDup); auto. congruence.
Qed.

(** ** The create handler *)

Lemma create_entry_run (W : World) (payload : pyval) (st : state) :
  create_entry W payload st =
  match get_couch_config W with
  | Raise e => (Raise e, st)
  | Ok cfg =>
      let st1 := {| trace := trace st; draws := draws st + 7 |} in
      match eval_display (doc_display payload (now_iso W)
                            (doc_id_of (Spec.drawn W (draws st) 7))) with
      | Raise e => (Raise e, st1)
      | Ok d =>
          match Json.dumps (PyDict d) with
          | Raise e => (Raise e, st1)
          | Ok _ =>
              let a := store W (trace st) (post_doc cfg (PyDict d)) in
              let st2 := {| trace := trace st ++ [(post_doc cfg (PyDict d), a)];
                            draws := draws st + 7 |} in
              match a with
              | Answered res =>
                  if status_in (status_code res) [200; 201; 202]%Z
                  then (Ok (PyDict d), st2)
                  else (Raise (HTTPException 500 ("CouchDB error: " ++ text res)), st2)
              | Failed msg => (Raise (TransportError msg), st2)
              end
          end
      end
  end.
Proof.
  unfold create_entry, bind, lift.
  destruct (get_couch_config W) as [cfg|e]; [|reflexivity].
  unfold generate_short_id. rewrite choices_spec.
  destruct (eval_display _) as [d|e]; [|reflexivity].
  destruct (Json.dumps (PyDict d)) as [[]|e]; [|reflexivity].
  unfold send. cbv zeta. cbn [trace draws].
  destruct (store W (trace st) (post_doc cfg (PyDict d))) as [res|msg]; [|reflexivity].
  now destruct (status_in (status_code res) [200; 201; 202]%Z).
Qed.

(** A successful evaluation of a display gives every key the value of its
    first entry. *)
Lemma eval_display_entry (es : list (string * result pyval)) (d : list (string * pyval)) :
  eval_display es = Ok d ->
  forall k v, entry k es = Some (Ok v) -> Py.assoc k d = Some v.
Proof.
  revert d. induction es as [|[k' r] es IH]; intros d Hev k v Hk; [discriminate|].
  cbn [eval_display] in Hev. destruct r as [v'|e]; [|discriminate]. cbn [rbind] in Hev.
  destruct (eval_display es) as [d'|e]; [|discriminate]. cbn [rbind] in Hev.
  injection Hev as <-. cbn [entry Py.assoc] in *.
  destruct (k =? k'); [congruence | now apply IH].
Qed.

(** What a returned document went through. *)
Lemma create_entry_returns (W : World) (payload doc : pyval) (st st' : state) :
  create_entry W payload st = (Ok doc, st') ->
  exists cfg d res,
    get_couch_config W = Ok cfg /\
    eval_display (doc_display payload (now_iso W)
                    (doc_id_of (Spec.drawn W (draws st) 7))) = Ok d /\
    doc = PyDict d /\
    store W (trace st) (post_doc cfg doc) = Answered res /\
    In (status_code res) [200; 201; 202]%Z /\
    trace st' = (trace st ++ [(post_doc cfg doc, Answered res)])%list.
Proof.
  rewrite create_entry_run.
  destruct (get_couch_config W) as [cfg|e]; [|discriminate].
  destruct (eval_display _) as [d|e] eqn:Hd; [|discriminate]. cbv zeta.
  destruct (Json.dumps (PyDict d)) as [[]|e]; [|discriminate].
  destruct (store W (trace st) (post_doc cfg (PyDict d))) as [res|msg] eqn:Hs; [|discriminate].
  destruct (status_in (status_code res) [200; 201; 202]%Z) eqn:Hsc; [|discriminate].
  intros H. injection H as <- <-. exists cfg, d, res.
  apply status_in_iff in Hsc. cbn [trace]. auto 10.
Qed.

(** Validation against the create model, read backwards. *)
Lemma EntryCreate_validate_inv (b : Models.body) (p : Models.EntryCreate) :
  Models.EntryCreate_validate b = Ok p ->
  Models.b_entryType b = Some (Models.entryType p) /\
  Models.literal ["expense"; "income"] (Models.entryType p) = true /\
  Models.b_category b = Some (Models.category p) /\
  Models.b_amount b = Some (Models.amount p) /\
  Models.currency p =
    match Models.b_currency b with Some c => c | None => "PKR" end /\
  Models.currency p <> "" /\
  Models.paymentMethod p =
    match Models.b_paymentMethod b with Some m => m | None => "cash" end /\
  Models.recordedBy p =
    match Models.b_recordedBy b with Some r => r | None => "manual" end /\
  Models.literal ["voice"; "manual"] (Models.recordedBy p) = true.
Proof.
  unfold Models.EntryCreate_validate.
  repeat match goal with
         | |- context [rbind ?r _] => destruct r eqn:?; [|discriminate]; cbn [rbind]
         end.
  intros H. injection H as <-. cbn.
  repeat match goal with
         | H : Models.required _ ?o = Ok _ |- _ =>
             destruct o; [injection H as ->|discriminate]
         | H : Models.check _ ?c = Ok _ |- _ => destruct c eqn:?; [clear H|discriminate]
         | H : Ok _ = Ok _ |- _ => injection H as <-
         end.
  destruct (Models.b_currency b) as [c|];
    [destruct (1 <=? String.length c)%nat eqn:Hlen; [|discriminate]|];
    destruct (Models.b_recordedBy b) as [r|];
    try (destruct (Models.literal ["voice"; "manual"] r) eqn:Hr; [|discriminate]);
    cbn [Models.check rbind] in *;
    repeat match goal with
           | H : Ok _ = Ok _ |- _ => injection H as <-
           end;
    repeat split; try assumption; try reflexivity; try discriminate.
  all: intros ->; discriminate.
Qed.

(** The display that the handler evaluates for an instance of the create
    model: every declared field is read, the read of [date] raises. *)
Lemma doc_display_instance (p : Models.EntryCreate) (now id : string) :
  doc_display (Models.EntryCreate_instance p) now id =
  [ ("_id", Ok (PyStr id));
    ("type", Ok (PyStr "entry"));
    ("entryType", Ok (PyStr (Models.entryType p)));
    ("category", Ok (PyStr (Models.category p)));
    ("amount", Ok (PyFloat (Models.amount p)));
    ("currency", Ok (Py.or_ (PyStr (Models.currency p)) (PyStr "PKR")));
    ("paymentMethod", Ok (Py.or_ (PyStr (Models.paymentMethod p)) (PyStr "cash")));
    ("notes", Ok (Models.opt_str (Models.notes p)));
    ("createdAt", Raise no_date);
    ("recordedBy", Ok (PyStr (Models.recordedBy p)));
    ("deviceId", Ok (Models.opt_str (Models.deviceId p)));
    ("syncStatus", Ok (PyStr "local"));
    ("meta", match Models.meta p with
             | Some m => Ok (Py.dump (Models.EntryMeta_instance m))
             | None => Ok PyNone
             end) ].
Proof.
  unfold doc_display, Models.EntryCreate_instance.
  cbn [Py.getattr Py.assoc String.eqb Ascii.eqb Bool.eqb rbind].
  do 12 f_equal. now destruct (Models.meta p).
Qed.

Lemma or_nonempty (s default : string) :
  s <> "" -> Py.or_ (PyStr s) (PyStr default) = PyStr s.
Proof.
  intros H. unfold Py.or_, Py.truthy.
  destruct (String.eqb_spec s ""); [contradiction | reflexivity].
Qed.

(** On an instance of the create model the handler raises before any
    request is sent: it returns no document. *)
Lemma create_entry_instance_raises (W : World) (p : Models.EntryCreate) (st : state) :
  exists e st',
    create_entry W (Models.EntryCreate_instance p) st = (Raise e, st') /\
    trace st' = trace st /\
    (forall cfg, get_couch_config W = Ok cfg -> e = no_date).
Proof.
  rewrite create_entry_run.
  destruct (get_couch_config W) as [cfg|e].
  - rewrite doc_display_instance. cbn [eval_display rbind].
    do 2 eexists. split; [reflexivity|]. split; [reflexivity | reflexivity].
  - exists e, st. split; [reflexivity|]. split; [reflexivity | discriminate].
Qed.

(** ** The timestamp *)

Lemma bounded_forall (P : N -> bool) (b : N) :
  forallb P (map N.of_nat (seq 0 (N.to_nat b))) = true ->
  forall n, (n < b)%N -> P n = true.
Proof.
  intros H n Hn. rewrite forallb_forall in H. apply H.
  apply in_map_iff. exists (N.to_nat n). split; [apply N2Nat.id|].
  apply in_seq. lia.
Qed.

Lemma zfill_width (w : nat) (b : N) :
  forallb (fun n => String.length (Py.zfill w (N_to_string n)) =? w)%nat
          (map N.of_nat (seq 0 (N.to_nat b))) = true ->
  forall n, (n < b)%N -> String.length (Py.zfill w (N_to_string n)) = w.
Proof.
  intros H n Hn. apply Nat.eqb_eq.
  exact (bounded_forall (fun n => String.length (Py.zfill w (N_to_string n)) =? w)%nat
           b H n Hn).
Qed.

Lemma zfill_2 (n : N) : (n < 100)%N -> String.length (Py.zfill 2 (N_to_string n)) = 2.
Proof. apply (zfill_width 2 100%N). vm_compute. reflexivity. Qed.

Lemma zfill_3 (n : N) : (n < 1000)%N -> String.length (Py.zfill 3 (N_to_string n)) = 3.
Proof. apply (zfill_width 3 1000%N). vm_compute. reflexivity. Qed.

Lemma zfill_4 (n : N) : (n < 10000)%N -> String.length (Py.zfill 4 (N_to_string n)) = 4.
Proof. apply (zfill_width 4 10000%N). vm_compute. reflexivity. Qed.

(** X17. For every clock reading within the ranges of a datetime, the
    server timestamp has the shape YYYY-MM-DDTHH:MM:SS.mmmZ: 24 characters,
    the separators in their places, the letter Z at the end. *)
Lemma now_iso_shape (W : World) :
  Spec.valid_datetime (utcnow W) ->
  String.length (now_iso W) = 24 /\
  String.get 4 (now_iso W) = Some "-"%char /\
  String.get 7 (now_iso W) = Some "-"%char /\
  String.get 10 (now_iso W) = Some "T"%char /\
  String.get 13 (now_iso W) = Some ":"%char /\
  String.get 16 (now_iso W) = Some ":"%char /\
  String.get 19 (now_iso W) = Some "."%char /\
  String.get 23 (now_iso W) = Some "Z"%char.
Proof.
  intros (Hy & Hmo & Hd & Hh & Hmi & Hs & Hus).
  unfold now_iso, isoformat_milliseconds.
  assert (microsecond (utcnow W) / 1000 < 1000)%N as Hms
      by (apply N.Div0.div_lt_upper_bound; exact Hus).
  pose proof (zfill_4 _ Hy) as L1. pose proof (zfill_2 _ Hmo) as L2.
  pose proof (zfill_2 _ Hd) as L3. pose proof (zfill_2 _ Hh) as L4.
  pose proof (zfill_2 _ Hmi) as L5. pose proof (zfill_2 _ Hs) as L6.
  pose proof (zfill_3 _ Hms) as L7.
  repeat match goal with
         | H : String.length ?s = _ |- _ =>
             let x := fresh "f" in
             set (x := s) in *; clearbody x;
             repeat (destruct x as [|? x]; try discriminate H); clear H
         end.
  repeat split; reflexivity.
Qed.

(** For a payload that does offer a [date] attribute, createdAt is that
    value unless it is falsy, and the server timestamp otherwise. *)
Lemma createdAt_of_dated_payload (cls : string) (attrs : list (string * pyval))
      (v : pyval) (now id : string) :
  Py.assoc "date" attrs = Some v ->
  entry "createdAt" (doc_display (PyObj cls attrs) now id) =
  Some (Ok (if Py.truthy v then v else PyStr now)).
Proof.
  intros H. unfold doc_display. cbn [entry String.eqb Ascii.eqb Bool.eqb].
  unfold Py.getattr. now rewrite H.
Qed.

(** ** The claims on the create handler *)

(** C3, the claim as stated fails: the alphabet has 55 characters, not 57. *)
Lemma alphabet_has_55_characters :
  String.length alphabet = 55 /\ String.length alphabet <> 57.
Proof. split; [reflexivity | discriminate]. Qed.

(** C3, amended. The alphabet is a fixed set of 55 distinct characters
    with none of the look-alikes 0, O, 1, I, l. For every length,
    [generate_short_id] returns a string of that length whose k-th character
    is the alphabet character at the position drawn by the k-th draw, the
    positions being in one-to-one correspondence with the characters (a
    uniform draw of a position is a uniform draw of a character); the handler
    asks for length 7 and prefixes the result with the number sign to form
    the document identifier. *)
Theorem generate_short_id_alphabet (W : World) (n : nat) (st : state) :
  String.length alphabet = 55 /\
  NoDup (list_ascii_of_string alphabet) /\
  existsb (Py.one_of alphabet) (list_ascii_of_string Spec.ambiguous) = false /\
  (forall c, In c (list_ascii_of_string alphabet) ->
     exists i, (i < 55 /\ nth i (list_ascii_of_string alphabet) "000"%char = c) /\
               forall j, j < 55 /\ nth j (list_ascii_of_string alphabet) "000"%char = c ->
                         j = i) /\
  (exists s,
     generate_short_id W n st = (Ok s, {| trace := trace st; draws := draws st + n |}) /\
     String.length s = n /\
     Spec.all (Py.one_of alphabet) s = true /\
     forall k, k < n ->
       String.get k s =
       Some (nth (entropy W (draws st + k) mod 55)
                 (list_ascii_of_string alphabet) "000"%char)) /\
  default_length = 7 /\
  (forall payload now s,
     entry "_id" (doc_display payload now (doc_id_of s)) = Some (Ok (PyStr ("#" ++ s)))) /\
  (forall payload doc st',
     create_entry W payload st = (Ok doc, st') ->
     exists d s,
       doc = PyDict d /\ Py.assoc "_id" d = Some (PyStr ("#" ++ s)) /\
       String.length s = 7 /\ Spec.all (Py.one_of alphabet) s = true).
Proof.
  split; [reflexivity|]. split; [apply alphabet_NoDup|]. split; [reflexivity|].
  split; [apply alphabet_positions|]. split.
  { exists (Spec.drawn W (draws st) n). unfold generate_short_id.
    split; [apply choices_spec|]. split; [apply drawn_length|].
    split; [apply drawn_in_alphabet|]. intros k Hk. now apply drawn_get. }
  split; [reflexivity|]. split; [reflexivity|].
  intros payload doc st' H.
  apply create_entry_returns in H as (cfg & d & res & _ & Hd & -> & _).
  exists d, (Spec.drawn W (draws st) 7). split; [reflexivity|].
  split; [|split; [apply drawn_length | apply drawn_in_alphabet]].
  apply (eval_display_entry _ _ Hd). reflexivity.
Qed.

(** C9. For every payload, the type and syncStatus entries of the document
    are the constants entry and local, whatever the payload carries, and so
    are these fields in every document that the handler returns. *)
Theorem create_entry_type_and_syncStatus (payload : pyval) (now id : string) :
  entry "type" (doc_display payload now id) = Some (Ok (PyStr "entry")) /\
  entry "syncStatus" (doc_display payload now id) = Some (Ok (PyStr "local")) /\
  (forall W st doc st',
     create_entry W payload st = (Ok doc, st') ->
     exists d, doc = PyDict d /\
               Py.assoc "type" d = Some (PyStr "entry") /\
               Py.assoc "syncStatus" d = Some (PyStr "local")).
Proof.
  split; [reflexivity|]. split; [reflexivity|].
  intros W st doc st' H.
  apply create_entry_returns in H as (cfg & d & res & _ & Hd & -> & _).
  exists d. split; [reflexivity|].
  split; apply (eval_display_entry _ _ Hd); reflexivity.
Qed.

(** The handler does return documents for objects that offer a [date]
    attribute, which no instance of the create model does. *)
Example create_entry_dated_object :
  fst (create_entry Examples.fresh Examples.dated_object start) =
  Ok (PyDict
        [("_id", PyStr "#5FRbnyA"); ("type", PyStr "entry");
         ("entryType", PyStr "income"); ("category", PyStr "salary");
         ("amount", PyFloat 100%float); ("currency", PyStr "USD");
         ("paymentMethod", PyStr "cash"); ("notes", PyNone);
         ("createdAt", PyStr "2024-05-06T07:08:09.000Z");
         ("recordedBy", PyStr "manual"); ("deviceId", PyNone);
         ("syncStatus", PyStr "local"); ("meta", PyNone)]).
Proof. reflexivity. Qed.

(** C2, evaluated on the code. The create model declares no [date] field:
    a [date] key of the body is dropped by validation, and the handler's read
    of the attribute raises for every instance, with or without the key.
    No createdAt is computed and no document is returned. *)
Theorem create_entry_createdAt_raises (W : World) (p : Models.EntryCreate) (st : state) :
  (forall now id,
     entry "createdAt" (doc_display (Models.EntryCreate_instance p) now id) =
     Some (Raise no_date)) /\
  (forall doc st', create_entry W (Models.EntryCreate_instance p) st <> (Ok doc, st')) /\
  (forall cfg, get_couch_config W = Ok cfg ->
     fst (create_entry W (Models.EntryCreate_instance p) st) = Raise no_date /\
     trace (snd (create_entry W (Models.EntryCreate_instance p) st)) = trace st) /\
  Models.EntryCreate_validate Examples.food_dated = Ok Examples.food_payload /\
  POST_entries Examples.fresh Examples.food_dated start =
    (Raise no_date, {| trace := []; draws := 7 |}) /\
  POST_entries Examples.fresh Examples.food start =
    (Raise no_date, {| trace := []; draws := 7 |}).
Proof.
  destruct (create_entry_instance_raises W p st) as (e & st1 & Hrun & Htr & He).
  split; [intros now id; now rewrite doc_display_instance|].
  split; [intros doc st' H; rewrite Hrun in H; discriminate|].
  split; [|repeat split; reflexivity].
  intros cfg Hcfg. rewrite Hrun. cbn [fst snd]. split; [|exact Htr].
  now rewrite (He cfg Hcfg).
Qed.

(** C1, evaluated on the code. For every body and every world the route
    returns no document and sends nothing to the store; when the body is
    valid and the configuration resolves, what it raises is the missing
    [date] attribute. So it is for the body of the claim's own example,
    although the store of that world would answer every POST with 201. *)
Theorem POST_entries_returns_no_document (W : World) (b : Models.body) (st : state) :
  (forall doc st', POST_entries W b st <> (Ok doc, st')) /\
  trace (snd (POST_entries W b st)) = trace st /\
  (forall p cfg,
     Models.EntryCreate_validate b = Ok p ->
     get_couch_config W = Ok cfg ->
     fst (POST_entries W b st) = Raise no_date) /\
  Models.EntryCreate_validate Examples.food = Ok Examples.food_payload /\
  (forall log doc,
     store Examples.fresh log (post_doc Examples.local_cfg doc) =
     Answered (Examples.response_of 201 "ok")) /\
  fst (POST_entries Examples.fresh Examples.food start) = Raise no_date.
Proof.
  unfold POST_entries, bind, lift.
  destruct (Models.EntryCreate_validate b) as [p|e].
  - destruct (create_entry_instance_raises W p st) as (e & st1 & Hrun & Htr & He).
    rewrite Hrun. cbn [fst snd].
    split; [intros doc st' H; discriminate|]. split; [exact Htr|].
    split; [|repeat split; reflexivity].
    intros p' cfg Hp Hcfg. now rewrite (He cfg Hcfg).
  - cbn [fst snd].
    split; [intros doc st' H; discriminate|]. split; [reflexivity|].
    split; [|repeat split; reflexivity].
    intros p' cfg Hp. discriminate.
Qed.

(** C7, the claim as stated fails: a body that supplies currency as an
    empty string does not validate, so no document with currency PKR is
    built for it. *)
Lemma empty_currency_is_rejected :
  Models.b_currency Examples.food_empty_currency = Some "" /\
  Models.EntryCreate_validate Examples.food_empty_currency =
    Raise (RequestValidationError "currency") /\
  POST_entries Examples.fresh Examples.food_empty_currency start =
    (Raise (RequestValidationError "currency"), start) /\
  ~ (exists p, Models.EntryCreate_validate Examples.food_empty_currency = Ok p).
Proof.
  split; [reflexivity|]. split; [reflexivity|]. split; [reflexivity|].
  intros (p & H). discriminate.
Qed.

(** C7, amended. For every body that is valid against the create model: if
    it omits currency, paymentMethod or recordedBy, the handler gives the
    document currency PKR, paymentMethod cash and recordedBy manual
    respectively; a supplied currency is kept and is never the empty string,
    which the model rejects; a paymentMethod supplied as the empty string
    does fall back to cash. *)
Theorem create_entry_defaults (b : Models.body) (p : Models.EntryCreate) :
  Models.EntryCreate_validate b = Ok p ->
  Models.b_currency b <> Some "" /\
  forall now id,
    let D := doc_display (Models.EntryCreate_instance p) now id in
    (Models.b_currency b = None -> entry "currency" D = Some (Ok (PyStr "PKR"))) /\
    (Models.b_paymentMethod b = None ->
     entry "paymentMethod" D = Some (Ok (PyStr "cash"))) /\
    (Models.b_recordedBy b = None -> entry "recordedBy" D = Some (Ok (PyStr "manual"))) /\
    (forall c, Models.b_currency b = Some c -> entry "currency" D = Some (Ok (PyStr c))) /\
    (Models.b_paymentMethod b = Some "" ->
     entry "paymentMethod" D = Some (Ok (PyStr "cash"))).
Proof.
  intros Hv.
  destruct (EntryCreate_validate_inv b p Hv) as (_ & _ & _ & _ & Hcur & Hne & Hpm & Hrb & _).
  split.
  { intros Hc. rewrite Hc in Hcur. now apply Hne. }
  intros now id D. subst D. rewrite doc_display_instance.
  cbn [entry String.eqb Ascii.eqb Bool.eqb]. rewrite (or_nonempty _ _ Hne).
  repeat split.
  - intros Hc. rewrite Hc in Hcur. now rewrite Hcur.
  - intros Hm. rewrite Hm in Hpm. now rewrite Hpm.
  - intros Hr. rewrite Hr in Hrb. now rewrite Hrb.
  - intros c Hc. rewrite Hc in Hcur. now rewrite Hcur.
  - intros Hm. rewrite Hm in Hpm. now rewrite Hpm.
Qed.

Lemma create_entry_defaults_witness :
  Models.EntryCreate_validate Examples.food = Ok Examples.food_payload /\
  entry "currency"
    (doc_display (Models.EntryCreate_instance Examples.food_payload)
       (now_iso Examples.fresh) (doc_id_of "5FRbnyA")) = Some (Ok (PyStr "PKR")) /\
  entry "paymentMethod"
    (doc_display (Models.EntryCreate_instance Examples.food_payload)
       (now_iso Examples.fresh) (doc_id_of "5FRbnyA")) = Some (Ok (PyStr "cash")) /\
  entry "recordedBy"
    (doc_display (Models.EntryCreate_instance Examples.food_payload)
       (now_iso Examples.fresh) (doc_id_of "5FRbnyA")) = Some (Ok (PyStr "manual")).
Proof.
  split; [reflexivity|].
  destruct (create_entry_defaults Examples.food Examples.food_payload eq_refl) as (_ & H).
  destruct (H (now_iso Examples.fresh) (doc_id_of "5FRbnyA")) as (H1 & H2 & H3 & _).
  split; [exact (H1 eq_refl)|]. split; [exact (H2 eq_refl) | exact (H3 eq_refl)].
Defined.

(** * Further properties *)

(** ** The ensurer *)

Lemma ensure_db_exists_get_failed (W : World) (base db : string) (st : state) (msg : string) :
  validate_db_name (PyStr db) = Ok tt ->
  store W (trace st) (get_db base db) = Failed msg ->
  ensure_db_exists W base db st =
  (Raise (TransportError msg),
   {| trace := trace st ++ [(get_db base db, Failed msg)]; draws := draws st |}).
Proof.
  intros Hv Hg. unfold ensure_db_exists, bind, lift. rewrite Hv.
  unfold send at 1. cbv zeta. now rewrite Hg.
Qed.

(** Every run of the ensurer, by what it exchanged with the store. *)
Lemma ensure_db_exists_exchanges (W : World) (base db : string) (st : state) :
  let st' := snd (ensure_db_exists W base db st) in
  draws st' = draws st /\
  (trace st' = trace st \/
   (exists a, trace st' = (trace st ++ [(get_db base db, a)])%list) \/
   (exists g a, status_code g = 404%Z /\
                trace st' = (trace st ++ [(get_db base db, Answered g);
                                          (put_db base db, a)])%list)).
Proof.
  cbv zeta. destruct (validate_db_name (PyStr db)) as [[]|e] eqn:Hv.
  - destruct (store W (trace st) (get_db base db)) as [g|msg] eqn:Hg.
    + rewrite (ensure_db_exists_after_get W base db st g Hv Hg). cbv zeta.
      destruct (status_code g =? 200)%Z eqn:E200;
        [cbn; split; [reflexivity | right; left; eauto]|].
      destruct (status_in (status_code g) [401; 403]%Z);
        [cbn; split; [reflexivity | right; left; eauto]|].
      destruct (status_in (status_code g) [404]%Z) eqn:E404;
        [|cbn; split; [reflexivity | right; left; eauto]].
      cbn [negb]. apply status_in_iff in E404. destruct E404 as [E404|[]].
      cbn [trace].
      match goal with
      | |- context [store W ?t ?r] => destruct (store W t r) as [p|m]
      end.
      * destruct (status_in (status_code p) [200; 201; 202; 412]%Z);
          [|destruct (status_in (status_code p) [401; 403]%Z)];
          cbn [snd trace draws]; (split; [reflexivity|]); right; right;
          exists g, (Answered p); rewrite <- List.app_assoc; auto.
      * cbn [snd trace draws]. split; [reflexivity|]. right; right.
        exists g, (Failed m). rewrite <- List.app_assoc. auto.
    + rewrite (ensure_db_exists_get_failed W base db st msg Hv Hg).
      cbn. split; [reflexivity | right; left; eauto].
  - rewrite (ensure_db_exists_invalid_name W base db st e Hv). cbn. auto.
Qed.


(** X2. The ensurer succeeds exactly when the validator accepts the name
    and the store answers the GET with 200, or answers it with 404 and then
    the PUT with 200, 201, 202 or 412. *)
Theorem ensure_db_exists_succeeds_iff (W : World) (base db : string) (st : state) :
  fst (ensure_db_exists W base db st) = Ok tt <->
  validate_db_name (PyStr db) = Ok tt /\
  exists g,
    store W (trace st) (get_db base db) = Answered g /\
    (status_code g = 200%Z \/
     (status_code g = 404%Z /\
      exists p,
        store W (trace st ++ [(get_db base db, Answered g)]) (put_db base db) = Answered p /\
        In (status_code p) [200; 201; 202; 412]%Z)).
Proof.
  destruct (validate_db_name (PyStr db)) as [[]|e] eqn:Hv.
  2:{ rewrite (ensure_db_exists_invalid_name W base db st e Hv). cbn.
      split; [discriminate | intros [H _]; discriminate]. }
  destruct (store W (trace st) (get_db base db)) as [g|msg] eqn:Hg.
  2:{ rewrite (ensure_db_exists_get_failed W base db st msg Hv Hg). cbn.
      split; [discriminate | intros (_ & g & H & _); discriminate]. }
  rewrite (ensure_db_exists_after_get W base db st g Hv Hg). cbv zeta. cbn [trace].
  split.
  - intros H. split; [reflexivity|]. exists g. split; [reflexivity|].
    destruct (Z.eqb_spec (status_code g) 200) as [E|E]; [now left|]. right.
    destruct (status_in (status_code g) [401; 403]%Z); [discriminate|].
    destruct (status_in (status_code g) [404]%Z) eqn:E404; [|discriminate].
    cbn [negb] in H. apply status_in_iff in E404. destruct E404 as [E404|[]].
    split; [now symmetry|].
    destruct (store W _ (put_db base db)) as [p|m]; [|discriminate].
    exists p. split; [reflexivity|]. apply status_in_iff.
    destruct (status_in (status_code p) [200; 201; 202; 412]%Z); [reflexivity|].
    destruct (status_in (status_code p) [401; 403]%Z); discriminate.
  - intros (_ & g' & Hg' & H). injection Hg' as <-.
    destruct H as [E | (E & p & Hp & Hin)].
    + now rewrite E.
    + rewrite E. change (404 =? 200)%Z with false.
      change (status_in 404 [401; 403]%Z) with false.
      change (negb (status_in 404 [404]%Z)) with false. cbv iota.
      rewrite Hp. apply status_in_iff in Hin. now rewrite Hin.
Qed.

(** ** The database path *)

Lemma quote_char_url_safe (c : ascii) :
  Spec.all Derived.url_safe (Urllib.quote_char "" c) = true.
Proof. destruct c as [[] [] [] [] [] [] [] []]; reflexivity. Qed.

Lemma quote_url_safe (s : string) : Spec.all Derived.url_safe (Urllib.quote s "") = true.
Proof.
  induction s as [|c s IH]; [reflexivity|].
  cbn [Urllib.quote]. now rewrite all_append, quote_char_url_safe, IH.
Qed.

Lemma quote_nonempty (s : string) : s <> "" -> Urllib.quote s "" <> "".
Proof.
  destruct s as [|c s]; [congruence|]. intros _. cbn [Urllib.quote].
  assert (Urllib.quote_char "" c <> "") as H
      by (destruct c as [[] [] [] [] [] [] [] []]; discriminate).
  destruct (Urllib.quote_char "" c); [congruence | discriminate].
Qed.

(** X3. The path that the ensurer requests is the base URL, a slash and
    one segment made of unreserved characters and percent signs only: no
    slash, blank, newline or other reserved character of the name reaches it,
    and the segment is empty only for the empty name. *)
Theorem db_path_segment (base db : string) :
  exists segment,
    rq_url (get_db base db) = base ++ "/" ++ segment /\
    rq_url (put_db base db) = base ++ "/" ++ segment /\
    Spec.all Derived.url_safe segment = true /\
    Spec.all (fun c => negb (Py.one_of "/ ?#" c || Py.isspace c)) segment = true /\
    (segment = "" <-> db = "").
Proof.
  exists (Urllib.quote db ""). split; [reflexivity|]. split; [reflexivity|].
  split; [apply quote_url_safe|]. split.
  - pose proof (quote_url_safe db) as H. revert H.
    generalize (Urllib.quote db ""). intros s. induction s as [|c s IH]; [reflexivity|].
    cbn [Spec.all]. rewrite !andb_true_iff. intros [Hc Hs]. split; [|now apply IH].
    revert Hc. destruct c as [[] [] [] [] [] [] [] []]; vm_compute; congruence.
  - split.
    + intros H. destruct (String.string_dec db "") as [E|E]; [exact E|].
      now apply quote_nonempty in E.
    + now intros ->.
Qed.

(** ** The listing handler *)

Lemma list_entries_run (W : World) (limit skip : option Z) (st : state) :
  list_entries W limit skip st =
  match get_couch_config W with
  | Raise e => (Raise (Derived.boundary e), st)
  | Ok cfg =>
      match ensure_db_exists W (base_url cfg) (db cfg) st with
      | (Raise e, st1) => (Raise (Derived.boundary e), st1)
      | (Ok _, st1) =>
          let a := store W (trace st1) (all_docs cfg limit skip) in
          let st2 := {| trace := trace st1 ++ [(all_docs cfg limit skip, a)];
                        draws := draws st1 |} in
          match a with
          | Failed msg => (Raise (Derived.boundary (TransportError msg)), st2)
          | Answered res =>
              if (status_code res =? 200)%Z
              then match Derived.listed res with
                   | Ok docs => (Ok docs, st2)
                   | Raise e => (Raise (Derived.boundary e), st2)
                   end
              else (Raise (Derived.boundary
                             (HTTPException 500 ("CouchDB error: " ++ text res))), st2)
          end
      end
  end.
Proof.
  unfold list_entries, reraise, bind, lift, Derived.boundary, Derived.listed.
  destruct (get_couch_config W) as [cfg|e]; [|reflexivity].
  destruct (ensure_db_exists W (base_url cfg) (db cfg) st) as [[[]|e] st1]; [|reflexivity].
  unfold send. cbv zeta.
  destruct (store W (trace st1) (all_docs cfg limit skip)) as [res|msg]; [|reflexivity].
  destruct (status_code res =? 200)%Z; [|reflexivity]. cbn [negb].
  destruct (response_json res) as [data|e]; [|reflexivity]. cbn [rbind].
  destruct (Py.get data "rows" (PyList [])) as [rows|e]; [|reflexivity]. cbn [rbind].
  destruct (Py.iter rows) as [items|e]; [|reflexivity]. cbn [rbind].
  now destruct (collect items []).
Qed.

(** X4. The listing handler lets no exception through as it is. Every
    failure comes out as an HTTP 500 whose detail is the word Error, a colon
    and the text of the exception that the failing step raised: the one of
    the resolver (nothing sent), the one of the ensurer, the transport
    failure of the listing request, the handler's own error for a listing
    answered with another status than 200, or the one raised while the
    answer is decoded and its rows are read. *)
Theorem list_entries_raises_only_500
        (W : World) (limit skip : option Z) (st st' : state) (e : exn) :
  list_entries W limit skip st = (Raise e, st') ->
  exists cause,
    e = HTTPException 500 ("Error: " ++ exn_str cause) /\
    ((get_couch_config W = Raise cause /\ st' = st) \/
     (exists cfg,
        get_couch_config W = Ok cfg /\
        ensure_db_exists W (base_url cfg) (db cfg) st = (Raise cause, st')) \/
     (exists cfg st1,
        get_couch_config W = Ok cfg /\
        ensure_db_exists W (base_url cfg) (db cfg) st = (Ok tt, st1) /\
        trace st' =
          (trace st1 ++ [(all_docs cfg limit skip,
                          store W (trace st1) (all_docs cfg limit skip))])%list /\
        ((exists msg,
            store W (trace st1) (all_docs cfg limit skip) = Failed msg /\
            cause = TransportError msg) \/
         (exists res,
            store W (trace st1) (all_docs cfg limit skip) = Answered res /\
            status_code res <> 200%Z /\
            cause = HTTPException 500 ("CouchDB error: " ++ text res)) \/
         (exists res,
            store W (trace st1) (all_docs cfg limit skip) = Answered res /\
            status_code res = 200%Z /\
            Derived.listed res = Raise cause)))).
Proof.
  rewrite list_entries_run.
  destruct (get_couch_config W) as [cfg|e0].
  2:{ intros H. injection H as <- <-. exists e0. split; [reflexivity | now left]. }
  destruct (ensure_db_exists W (base_url cfg) (db cfg) st) as [[[]|e0] st1] eqn:He.
  2:{ intros H. injection H as <- <-. exists e0. split; [reflexivity|].
      right; left. exists cfg. split; [reflexivity | exact He]. }
  cbv zeta.
  destruct (store W (trace st1) (all_docs cfg limit skip)) as [res|msg] eqn:Hs.
  2:{ intros H. injection H as <- <-. exists (TransportError msg).
      split; [reflexivity|]. right; right. exists cfg, st1.
      rewrite Hs. do 3 (split; [first [reflexivity | exact He]|]). left. now exists msg. }
  destruct (Z.eqb_spec (status_code res) 200) as [Hsc|Hsc].
  - destruct (Derived.listed res) as [docs|e0] eqn:Hl; [discriminate|].
    intros H. injection H as <- <-. exists e0. split; [reflexivity|].
    right; right. exists cfg, st1. rewrite Hs. do 3 (split; [first [reflexivity | exact He]|]).
    right; right. now exists res.
  - intros H. injection H as <- <-.
    exists (HTTPException 500 ("CouchDB error: " ++ text res)).
    split; [reflexivity|]. right; right. exists cfg, st1. rewrite Hs. do 3 (split; [first [reflexivity | exact He]|]).
    right; left. now exists res.
Qed.

Lemma list_entries_raises_only_500_witness :
  list_entries Scenarios.odd None None start =
    (Raise (HTTPException 500 "Error: 'NoneType' object has no attribute 'get'"),
     {| trace :=
          [(get_db "http://localhost:5984" "fintech",
            Answered (Examples.response_of 200 "{}"));
           (all_docs Examples.local_cfg None None, Answered Scenarios.odd_listing)];
        draws := 0 |}) /\
  exists cause,
    HTTPException 500 "Error: 'NoneType' object has no attribute 'get'" =
      HTTPException 500 ("Error: " ++ exn_str cause) /\
    Derived.listed Scenarios.odd_listing = Raise cause.
Proof.
  assert (list_entries Scenarios.odd None None start =
          (Raise (HTTPException 500 "Error: 'NoneType' object has no attribute 'get'"),
           {| trace :=
                [(get_db "http://localhost:5984" "fintech",
                  Answered (Examples.response_of 200 "{}"));
                 (all_docs Examples.local_cfg None None, Answered Scenarios.odd_listing)];
              draws := 0 |})) as H by reflexivity.
  split; [exact H|].
  destruct (list_entries_raises_only_500 Scenarios.odd None None start _ _ H)
    as (cause & He & [[Hc _] | [(cfg & Hc & Hens) | (cfg & st1 & Hc & Hens & _ & Hcase)]]).
  - discriminate Hc.
  - injection Hc as <-. vm_compute in Hens. discriminate Hens.
  - injection Hc as <-. vm_compute in Hens. injection Hens as <-.
    exists cause. split; [exact He|].
    destruct Hcase as [(msg & Hs & _) | [(res & Hs & Hsc & _) | (res & Hs & _ & Hl)]].
    + vm_compute in Hs. discriminate Hs.
    + vm_compute in Hs. injection Hs as <-. now elim Hsc.
    + vm_compute in Hs. injection Hs as <-. exact Hl.
Defined.

(** X5. When the listing request is answered with a status other than
    200, the handler raises its own HTTP error carrying the body of the
    answer, catches it like any other exception and raises an HTTP 500 whose
    detail is Error, a colon and the text of that inner error; the listing
    is asked for once and not retried. *)
Theorem list_entries_refused_listing
        (W : World) (limit skip : option Z) (st st1 : state) (cfg : config) (res : response) :
  get_couch_config W = Ok cfg ->
  ensure_db_exists W (base_url cfg) (db cfg) st = (Ok tt, st1) ->
  store W (trace st1) (all_docs cfg limit skip) = Answered res ->
  status_code res <> 200%Z ->
  list_entries W limit skip st =
  (Raise (HTTPException 500
            ("Error: " ++ exn_str (HTTPException 500 ("CouchDB error: " ++ text res)))),
   {| trace := trace st1 ++ [(all_docs cfg limit skip, Answered res)];
      draws := draws st1 |}).
Proof.
  intros Hc He Hs Hsc. rewrite list_entries_run, Hc, He. cbv zeta. rewrite Hs.
  apply Z.eqb_neq in Hsc. now rewrite Hsc.
Qed.

Lemma list_entries_refused_listing_witness :
  fst (list_entries Scenarios.broken_listing None (Some 5%Z) start) =
  Raise (HTTPException 500
           ("Error: " ++ exn_str (HTTPException 500 "CouchDB error: unavailable"))).
Proof.
  rewrite (list_entries_refused_listing Scenarios.broken_listing None (Some 5%Z) start
             {| trace := [(get_db "http://localhost:5984" "fintech",
                           Answered (Examples.response_of 200 "{}"))];
                draws := 0 |}
             Examples.local_cfg (Examples.response_of 503 "unavailable"));
    try reflexivity.
  discriminate.
Defined.

(** X6. The listing handler contacts the store exactly when the
    configuration resolves and the resolved database name is in the name
    grammar; otherwise it fails without a single request. *)
Theorem list_entries_contacts_store_iff (W : World) (limit skip : option Z) (st : state) :
  trace (snd (list_entries W limit skip st)) <> trace st <->
  exists cfg, get_couch_config W = Ok cfg /\ Spec.name_grammar (db cfg) = true.
Proof.
  rewrite list_entries_run.
  destruct (get_couch_config W) as [cfg|e] eqn:Hc.
  2:{ cbn. split; [congruence | intros (cfg & H & _); discriminate]. }
  pose proof (validate_db_name_exact_on_resolved_names W cfg Hc) as Hx.
  destruct (validate_db_name (PyStr (db cfg))) as [[]|e] eqn:Hv.
  - split.
    + intros _. exists cfg. split; [reflexivity | now apply Hx].
    + intros _ Heq.
      destruct (ensure_db_exists_sends_get W (base_url cfg) (db cfg) st Hv)
        as (a & rest & _ & Ht).
      destruct (ensure_db_exists W (base_url cfg) (db cfg) st) as [[[]|e] st1];
        cbn [snd] in Ht.
      * cbv zeta in Heq.
        assert (exists x, trace st = (trace st1 ++ [x])%list) as (x & Hx').
        { destruct (store W (trace st1) (all_docs cfg limit skip)) as [res|msg].
          - destruct (status_code res =? 200)%Z; [destruct (Derived.listed res)|];
              cbn [snd trace] in Heq; eauto.
          - cbn [snd trace] in Heq. eauto. }
        rewrite Ht, <- List.app_assoc in Hx'. now apply trace_grows_not in Hx'.
      * cbn [snd] in Heq. rewrite Ht in Heq. symmetry in Heq.
        now apply trace_grows_not in Heq.
  - rewrite (ensure_db_exists_invalid_name W (base_url cfg) (db cfg) st e Hv). cbn [snd].
    split; [congruence|]. intros (cfg' & Hc' & Hg). injection Hc' as <-.
    apply Hx in Hg. discriminate.
Qed.

(** X7. Whatever the environment and the store, the listing handler draws
    no random number and exchanges at most three messages with the store,
    none of them a POST: it never writes a document. *)
Theorem list_entries_footprint (W : World) (limit skip : option Z) (st : state) :
  let st' := snd (list_entries W limit skip st) in
  draws st' = draws st /\
  exists evs,
    trace st' = (trace st ++ evs)%list /\
    List.length evs <= 3 /\
    forallb Derived.reads_or_creates evs = true.
Proof.
  cbv zeta. rewrite list_entries_run.
  destruct (get_couch_config W) as [cfg|e].
  2:{ cbn. split; [reflexivity|]. exists []. rewrite List.app_nil_r.
      repeat split; auto. }
  destruct (ensure_db_exists_exchanges W (base_url cfg) (db cfg) st) as (Hd & Ht).
  cbv zeta in Hd, Ht.
  assert (exists evs, trace (snd (ensure_db_exists W (base_url cfg) (db cfg) st)) =
                      (trace st ++ evs)%list /\
                      List.length evs <= 2 /\
                      forallb Derived.reads_or_creates evs = true) as (evs & He & Hl & Hm).
  { destruct Ht as [H | [(a & H) | (g & a & _ & H)]].
    - exists []. rewrite List.app_nil_r. repeat split; auto.
    - exists [(get_db (base_url cfg) (db cfg), a)]. repeat split; auto.
    - exists [(get_db (base_url cfg) (db cfg), Answered g);
              (put_db (base_url cfg) (db cfg), a)]. repeat split; auto. }
  destruct (ensure_db_exists W (base_url cfg) (db cfg) st) as [[[]|e] st1];
    cbn [snd] in Hd, He.
  - cbv zeta.
    assert (forall r : result (list pyval),
              let st2 := {| trace := trace st1
                                     ++ [(all_docs cfg limit skip,
                                          store W (trace st1) (all_docs cfg limit skip))];
                            draws := draws st1 |} in
              draws (snd (r, st2)) = draws st /\
              exists evs',
                trace (snd (r, st2)) = (trace st ++ evs')%list /\
                List.length evs' <= 3 /\
                forallb Derived.reads_or_creates evs' = true) as Hst2.
    { intros r. cbn [snd trace draws]. split; [exact Hd|].
      exists (evs ++ [(all_docs cfg limit skip,
                       store W (trace st1) (all_docs cfg limit skip))])%list.
      rewrite He, <- List.app_assoc, List.length_app, forallb_app, Hm.
      cbn [List.length]. split; [reflexivity|]. split; [lia | reflexivity]. }
    cbv zeta in Hst2.
    destruct (store W (trace st1) (all_docs cfg limit skip)) as [res|msg]; [|apply Hst2].
    destruct (status_code res =? 200)%Z; [|apply Hst2].
    destruct (Derived.listed res); apply Hst2.
  - cbn [snd]. split; [exact Hd|]. exists evs. repeat split; auto.
Qed.

(** The loop succeeds only on rows that are all objects. *)
Lemma collect_succeeds_only_on_objects (rows docs out : list pyval) :
  collect rows docs = Ok out -> Forall (fun row => Py.is_dict row = true) rows.
Proof.
  revert docs. induction rows as [|row rows IH]; intros docs H; [constructor|].
  destruct row; try discriminate.
  rewrite collect_row in H. constructor; [reflexivity | eapply IH; exact H].
Qed.

Lemma entry_docs_are_entries (rows : list pyval) :
  Forall (fun doc => Spec.is_entry doc = true) (Spec.entry_docs rows).
Proof.
  apply Forall_forall. intros doc H. now apply entry_docs_In in H as (_ & _ & _ & H).
Qed.

(** X8. Whenever the listing handler returns, the ensurer had succeeded,
    the listing request was answered with status 200 and a JSON object, and
    the rows that the answer holds under [rows] (none when the key is
    missing) were all objects; what the handler returns is the embedded
    entry documents of exactly those rows, in their order: every returned
    document is an object whose type is entry, and there are no more of them
    than rows. *)
Theorem list_entries_returns_entries_only
        (W : World) (limit skip : option Z) (st st' : state) (docs : list pyval) :
  list_entries W limit skip st = (Ok docs, st') ->
  exists cfg st1 res data held rows,
    get_couch_config W = Ok cfg /\
    ensure_db_exists W (base_url cfg) (db cfg) st = (Ok tt, st1) /\
    store W (trace st1) (all_docs cfg limit skip) = Answered res /\
    trace st' = (trace st1 ++ [(all_docs cfg limit skip, Answered res)])%list /\
    status_code res = 200%Z /\
    json res = inl (PyDict data) /\
    Py.get (PyDict data) "rows" (PyList []) = Ok held /\
    Py.iter held = Ok rows /\
    Forall (fun row => Py.is_dict row = true) rows /\
    docs = Spec.entry_docs rows /\
    Forall (fun doc => Spec.is_entry doc = true) docs /\
    List.length docs <= List.length rows.
Proof.
  rewrite list_entries_run.
  destruct (get_couch_config W) as [cfg|e] eqn:Hc; [|discriminate].
  destruct (ensure_db_exists W (base_url cfg) (db cfg) st) as [[[]|e] st1] eqn:He;
    [|discriminate].
  cbv zeta.
  destruct (store W (trace st1) (all_docs cfg limit skip)) as [res|msg] eqn:Hs;
    [|discriminate].
  destruct (Z.eqb_spec (status_code res) 200) as [Hsc|Hsc]; [|discriminate].
  unfold Derived.listed, response_json.
  destruct (json res) as [data|msg] eqn:Hj; [|discriminate]. cbn [rbind].
  destruct (Py.get data "rows" (PyList [])) as [held|e] eqn:Hg; [|discriminate].
  assert (exists d, data = PyDict d) as (d & ->) by (destruct data; try discriminate; eauto).
  cbn [rbind].
  destruct (Py.iter held) as [items|e] eqn:Hi; [|discriminate]. cbn [rbind].
  destruct (collect items []) as [out|e] eqn:Hout; [|discriminate].
  intros H. injection H as <- <-.
  pose proof (collect_succeeds_only_on_objects _ _ _ Hout) as Hobj.
  rewrite (collect_entry_docs items [] Hobj) in Hout. injection Hout as <-.
  exists cfg, st1, res, d, held, items. cbn [trace List.app].
  split; [reflexivity|]. split; [exact He|]. split; [exact Hs|].
  split; [reflexivity|]. split; [exact Hsc|]. split; [exact Hj|].
  split; [exact Hg|]. split; [exact Hi|]. split; [exact Hobj|].
  split; [reflexivity|]. split; [apply entry_docs_are_entries|].
  clear. induction items as [|row items IH]; [auto|].
  cbn [Spec.entry_docs flat_map List.length]. rewrite List.length_app.
  fold (Spec.entry_docs items).
  destruct (Spec.embedded_doc row) as [d|]; [destruct (Spec.is_entry d)|]; cbn; lia.
Qed.

Lemma list_entries_returns_entries_only_witness :
  list_entries (Examples.world Examples.local Examples.listing_store) None None start =
    (Ok [Examples.entry_doc "#23456AB"; Examples.entry_doc "zzzzzzz"],
     {| trace :=
          [(get_db "http://localhost:5984" "fintech",
            Answered (Examples.response_of 200 "{}"));
           (all_docs Examples.local_cfg None None, Answered Examples.listing)];
        draws := 0 |}) /\
  [Examples.entry_doc "#23456AB"; Examples.entry_doc "zzzzzzz"] =
    Spec.entry_docs Examples.mixed_rows.
Proof.
  assert (list_entries (Examples.world Examples.local Examples.listing_store)
            None None start =
          (Ok [Examples.entry_doc "#23456AB"; Examples.entry_doc "zzzzzzz"],
           {| trace :=
                [(get_db "http://localhost:5984" "fintech",
                  Answered (Examples.response_of 200 "{}"));
                 (all_docs Examples.local_cfg None None, Answered Examples.listing)];
              draws := 0 |})) as H by reflexivity.
  split; [exact H|].
  destruct (list_entries_returns_entries_only _ _ _ _ _ _ H)
    as (cfg & st1 & res & data & held & rows & Hc & He & Hs & _ & _ & Hj & Hg & Hi
        & _ & Hd & _).
  injection Hc as <-. vm_compute in He. injection He as <-.
  vm_compute in Hs. injection Hs as <-.
  injection Hj as <-. vm_compute in Hg. injection Hg as <-.
  cbn in Hi. injection Hi as <-. exact Hd.
Defined.

(** The loop stops at the first row that is not an object. *)
Lemma collect_stops_at_non_object (before after docs : list pyval) (row : pyval) :
  Forall (fun r => Py.is_dict r = true) before ->
  Py.is_dict row = false ->
  collect (before ++ row :: after) docs = Raise (Py.no_attribute row "get").
Proof.
  intros Hb Hrow. revert docs. induction Hb as [|r before Hr _ IH]; intros docs.
  - cbn [List.app collect]. destruct row; try discriminate; reflexivity.
  - destruct r; try discriminate. cbn [List.app]. now rewrite collect_row, IH.
Qed.

(** X9. A single row that is not an object (null, a string, a number, a
    list) makes the whole listing fail, whatever the other rows hold: the
    handler raises an HTTP 500 that reports the missing [get] attribute of
    that row, and returns none of the entries. *)
Theorem list_entries_non_object_row
        (W : World) (limit skip : option Z) (st st1 : state) (cfg : config)
        (res : response) (data : list (string * pyval))
        (before after : list pyval) (row : pyval) :
  get_couch_config W = Ok cfg ->
  ensure_db_exists W (base_url cfg) (db cfg) st = (Ok tt, st1) ->
  store W (trace st1) (all_docs cfg limit skip) = Answered res ->
  status_code res = 200%Z ->
  json res = inl (PyDict data) ->
  Py.assoc "rows" data = Some (PyList (before ++ row :: after)) ->
  Forall (fun r => Py.is_dict r = true) before ->
  Py.is_dict row = false ->
  fst (list_entries W limit skip st) =
  Raise (HTTPException 500
           ("Error: '" ++ Py.type_name row ++ "' object has no attribute 'get'")).
Proof.
  intros Hc He Hs Hsc Hj Hr Hb Hrow. rewrite list_entries_run, Hc, He. cbv zeta.
  rewrite Hs, Hsc. cbn [Z.eqb Pos.eqb].
  unfold Derived.listed, response_json. rewrite Hj. cbn [rbind Py.get]. rewrite Hr.
  cbn [rbind Py.iter]. now rewrite (collect_stops_at_non_object before after [] row Hb Hrow).
Qed.

Lemma list_entries_non_object_row_witness :
  fst (list_entries Scenarios.odd None None start) =
  Raise (HTTPException 500 "Error: 'NoneType' object has no attribute 'get'").
Proof.
  apply (list_entries_non_object_row Scenarios.odd None None start
           {| trace := [(get_db "http://localhost:5984" "fintech",
                         Answered (Examples.response_of 200 "{}"))];
              draws := 0 |}
           Examples.local_cfg Scenarios.odd_listing
           [("rows", PyList Scenarios.odd_rows)]
           [PyDict [("id", PyStr "#23456AB"); ("doc", Examples.entry_doc "#23456AB")]]
           [PyDict [("id", PyStr "zzzzzzz"); ("doc", Examples.entry_doc "zzzzzzz")]]
           PyNone);
    try reflexivity.
  repeat constructor.
Defined.

(** ** Edge cases of the resolver *)

Lemma all_impl (P Q : ascii -> bool) (s : string) :
  (forall c, P c = true -> Q c = true) -> Spec.all P s = true -> Spec.all Q s = true.
Proof.
  intros HPQ. induction s as [|c s IH]; [reflexivity|].
  cbn [Spec.all]. rewrite !andb_true_iff. intros [Hc Hs]. auto.
Qed.

Lemma lstrip_all (P : ascii -> bool) (s : string) :
  Spec.all P s = true -> Py.lstrip P s = "".
Proof.
  induction s as [|c s IH]; [reflexivity|].
  cbn [Spec.all Py.lstrip]. rewrite andb_true_iff. intros [-> Hs]. auto.
Qed.

Lemma rstrip_all (P : ascii -> bool) (s : string) :
  Spec.all P s = true -> Py.rstrip P s = "".
Proof.
  induction s as [|c s IH]; [reflexivity|].
  cbn [Spec.all Py.rstrip]. rewrite andb_true_iff. intros [Hc Hs].
  now rewrite (IH Hs), Hc.
Qed.

Lemma strip_all (P : ascii -> bool) (s : string) :
  Spec.all P s = true -> Py.strip P s = "".
Proof. intros H. unfold Py.strip. now rewrite (lstrip_all P s H). Qed.

Lemma rstrip_none (P : ascii -> bool) (s : string) :
  Spec.all (fun c => negb (P c)) s = true -> Py.rstrip P s = s.
Proof.
  induction s as [|c s IH]; [reflexivity|].
  cbn [Spec.all Py.rstrip]. rewrite andb_true_iff, negb_true_iff. intros [Hc Hs].
  rewrite (IH Hs), Hc. now destruct s.
Qed.

Lemma strip_none (P : ascii -> bool) (s : string) :
  Spec.all (fun c => negb (P c)) s = true -> Py.strip P s = s.
Proof.
  intros H. unfold Py.strip.
  assert (Py.lstrip P s = s) as ->; [|now apply rstrip_none].
  destruct s as [|c s]; [reflexivity|].
  cbn [Spec.all] in H. apply andb_true_iff in H as [Hc _].
  apply negb_true_iff in Hc. cbn [Py.lstrip]. now rewrite Hc.
Qed.

Lemma or_str_given (s default : string) : s <> "" -> Py.or_str (Some s) default = s.
Proof.
  intros H. unfold Py.or_str. destruct (String.eqb_spec s ""); [contradiction | reflexivity].
Qed.

(** X10. A primary URL variable that is set to blanks only is taken as the
    URL, so the resolver fails with its missing-URL error whatever the
    fallback variable holds: the fallback is consulted only when the primary
    is unset or empty. *)
Theorem get_couch_config_blank_url (W : World) (s : string) :
  getenv W "COUCHDB_URL" = Some s ->
  s <> "" ->
  Spec.all Py.isspace s = true ->
  get_couch_config W =
  Raise (HTTPException 500 "Config error: COUCHDB_URL missing in environment").
Proof.
  intros Hs Hne Hall. unfold get_couch_config.
  rewrite Hs, (or_str_given s _ Hne), (strip_all Py.isspace s Hall).
  reflexivity.
Qed.

Lemma get_couch_config_blank_url_witness :
  getenv Scenarios.blank_url "NEXT_PUBLIC_COUCHDB_URL" = Some "http://localhost:5984" /\
  get_couch_config Scenarios.blank_url =
  Raise (HTTPException 500 "Config error: COUCHDB_URL missing in environment").
Proof.
  split; [reflexivity|].
  apply (get_couch_config_blank_url Scenarios.blank_url "   ");
    [reflexivity | discriminate | reflexivity].
Defined.

(** X11. A URL made of slashes only passes the emptiness check, which
    comes before the trailing slashes are stripped: the resolver succeeds
    with an empty base URL, and the handlers then address the store by a
    path without a host. *)
Theorem get_couch_config_slash_url (W : World) (s : string) :
  getenv W "COUCHDB_URL" = Some s ->
  s <> "" ->
  Spec.all (Py.one_of "/") s = true ->
  exists name,
    get_couch_config W = Ok {| base_url := ""; db := name |} /\
    (forall doc, rq_url (post_doc {| base_url := ""; db := name |} doc) = "/" ++ name) /\
    (forall limit skip,
       rq_url (all_docs {| base_url := ""; db := name |} limit skip) =
       "/" ++ name ++ "/_all_docs").
Proof.
  intros Hs Hne Hall. unfold get_couch_config.
  rewrite Hs, (or_str_given s _ Hne).
  assert (forall P, (forall c, Py.one_of "/" c = true -> negb (P c) = true) ->
                    Py.strip P s = s) as Hkeep.
  { intros P HP. apply strip_none. now apply (all_impl (Py.one_of "/")). }
  assert (forall c, Py.one_of "/" c = true -> c = "/"%char) as Hslash.
  { intros c Hc. unfold Py.one_of in Hc. cbn in Hc.
    rewrite orb_false_r in Hc. now apply Ascii.eqb_eq in Hc. }
  rewrite (Hkeep Py.isspace) by (intros c Hc; now rewrite (Hslash c Hc)).
  rewrite (Hkeep (Py.one_of double_quote)) by (intros c Hc; now rewrite (Hslash c Hc)).
  rewrite (Hkeep (Py.one_of single_quote)) by (intros c Hc; now rewrite (Hslash c Hc)).
  destruct (String.eqb_spec s "") as [E|_]; [contradiction|].
  rewrite (rstrip_all _ s Hall). eexists. split; [reflexivity|]. split; reflexivity.
Qed.

Lemma get_couch_config_slash_url_witness :
  get_couch_config Scenarios.slash_url = Ok {| base_url := ""; db := "fintech" |}.
Proof.
  destruct (get_couch_config_slash_url Scenarios.slash_url "/") as (name & H & _);
    [reflexivity | discriminate | reflexivity |].
  rewrite H. vm_compute in H. injection H as <-. reflexivity.
Defined.

(** X12. A database-name variable that is set to blanks only is taken as
    the name, not replaced by the default: the resolver returns the empty
    name, and the listing handler then fails on the validator's empty-name
    error without a single request to the store. *)
Theorem list_entries_blank_name
        (W : World) (s : string) (cfg : config) (limit skip : option Z) (st : state) :
  getenv W "COUCHDB_DB" = Some s ->
  s <> "" ->
  Spec.all Py.isspace s = true ->
  get_couch_config W = Ok cfg ->
  db cfg = "" /\
  list_entries W limit skip st =
  (Raise (HTTPException 500
            "Error: COUCHDB_DB (or NEXT_PUBLIC_DB_NAME) is empty or invalid"), st).
Proof.
  intros Hs Hne Hall Hc.
  assert (db cfg = "") as Hdb.
  { unfold get_couch_config in Hc. rewrite Hs, (or_str_given s _ Hne) in Hc.
    rewrite (strip_all Py.isspace s Hall) in Hc.
    destruct (String.eqb _ "") in Hc; [discriminate|]. now injection Hc as <-. }
  split; [exact Hdb|].
  rewrite list_entries_run, Hc.
  rewrite (ensure_db_exists_invalid_name W (base_url cfg) (db cfg) st
             (RuntimeError "COUCHDB_DB (or NEXT_PUBLIC_DB_NAME) is empty or invalid"));
    [reflexivity | now rewrite Hdb].
Qed.

Lemma list_entries_blank_name_witness :
  list_entries Scenarios.blank_name None None start =
  (Raise (HTTPException 500
            "Error: COUCHDB_DB (or NEXT_PUBLIC_DB_NAME) is empty or invalid"), start).
Proof.
  apply (list_entries_blank_name Scenarios.blank_name "  "
           {| base_url := "http://localhost:5984"; db := "" |} None None start);
    [reflexivity | discriminate | reflexivity | reflexivity].
Defined.

(** ** Collisions of identifiers *)

Lemma string_of_list_ascii_inj (l1 l2 : list ascii) :
  string_of_list_ascii l1 = string_of_list_ascii l2 -> l1 = l2.
Proof.
  intros H. apply (f_equal list_ascii_of_string) in H.
  now rewrite !list_ascii_of_string_of_list_ascii in H.
Qed.

Lemma map_seq_eq {A} (f g : nat -> A) (n : nat) :
  map f (seq 0 n) = map g (seq 0 n) <-> forall k, k < n -> f k = g k.
Proof.
  split.
  - intros H k Hk. apply (f_equal (fun l => nth_error l k)) in H.
    rewrite !nth_error_map in H.
    rewrite (nth_error_nth' (seq 0 n) 0) in H by now rewrite List.length_seq.
    rewrite seq_nth in H by exact Hk. cbn in H. now injection H.
  - intros H. apply map_ext_in. intros k Hk. apply in_seq in Hk. apply H. lia.
Qed.

(** X13. Two generated identifiers of the same length are equal exactly
    when, position by position, their draws select the same place of the
    alphabet: no two different selections spell the same identifier. *)
Theorem generate_short_id_collision (W W' : World) (n : nat) (st st' : state) :
  fst (generate_short_id W n st) = fst (generate_short_id W' n st') <->
  forall k, k < n ->
    entropy W (draws st + k) mod 55 = entropy W' (draws st' + k) mod 55.
Proof.
  unfold generate_short_id. rewrite !choices_spec. cbn [fst]. unfold Spec.drawn.
  split.
  - intros H. injection H as H. apply string_of_list_ascii_inj in H.
    intros k Hk. pose proof (proj1 (map_seq_eq _ _ n) H k Hk) as Hn. cbv beta in Hn.
    apply (proj1 (NoDup_nth _ "000"%char) alphabet_NoDup); [| |exact Hn];
      change (List.length (list_ascii_of_string alphabet)) with 55;
      apply Nat.mod_upper_bound; discriminate.
  - intros H. do 2 f_equal. apply map_seq_eq. intros k Hk. now rewrite (H k Hk).
Qed.

(** ** The create handler, whatever the payload *)

Lemma now_iso_shape_witness :
  Spec.valid_datetime (utcnow Examples.fresh) /\
  String.length (now_iso Examples.fresh) = 24 /\
  String.get 23 (now_iso Examples.fresh) = Some "Z"%char.
Proof.
  assert (Spec.valid_datetime (utcnow Examples.fresh)) as H
      by (repeat split; reflexivity).
  split; [exact H|].
  destruct (now_iso_shape Examples.fresh H) as (H1 & _ & _ & _ & _ & _ & _ & H2).
  split; [exact H1 | exact H2].
Defined.

(** X14. For every payload and every world, the create handler exchanges
    at most one message with the store, and that one is a POST to the base
    URL, a slash and the database name as configured (neither validated nor
    percent-encoded) carrying the document with its number-sign identifier;
    it never sends a GET or a PUT, so it never runs the existence ensurer. It
    draws no random number when the configuration fails and seven
    otherwise. *)
Theorem create_entry_footprint (W : World) (payload : pyval) (st : state) :
  let st' := snd (create_entry W payload st) in
  (trace st' = trace st /\
   (draws st' = draws st /\ (exists e, get_couch_config W = Raise e) \/
    draws st' = draws st + 7 /\ (exists cfg, get_couch_config W = Ok cfg))) \/
  (exists cfg d a,
     get_couch_config W = Ok cfg /\
     draws st' = draws st + 7 /\
     trace st' = (trace st ++ [(post_doc cfg (PyDict d), a)])%list /\
     rq_method (post_doc cfg (PyDict d)) = POST /\
     rq_url (post_doc cfg (PyDict d)) = base_url cfg ++ "/" ++ db cfg /\
     Py.assoc "_id" d = Some (PyStr ("#" ++ Spec.drawn W (draws st) 7))).
Proof.
  cbv zeta. rewrite create_entry_run.
  destruct (get_couch_config W) as [cfg|e].
  2:{ left. cbn. split; [reflexivity|]. left. eauto. }
  cbv zeta. destruct (eval_display _) as [d|e] eqn:Hd.
  2:{ left. cbn. split; [reflexivity|]. right. eauto. }
  destruct (Json.dumps (PyDict d)) as [[]|e].
  2:{ left. cbn. split; [reflexivity|]. right. eauto. }
  right.
  assert (Py.assoc "_id" d = Some (PyStr ("#" ++ Spec.drawn W (draws st) 7))) as Hid
      by (apply (eval_display_entry _ _ Hd); reflexivity).
  exists cfg, d, (store W (trace st) (post_doc cfg (PyDict d))).
  destruct (store W (trace st) (post_doc cfg (PyDict d))) as [res|msg];
    [destruct (status_in (status_code res) [200; 201; 202]%Z)|];
    cbn [snd trace draws]; repeat split; auto.
Qed.

Lemma eval_display_raises (es : list (string * result pyval)) (k : string) (e : exn) :
  entry k es = Some (Raise e) -> exists e', eval_display es = Raise e'.
Proof.
  induction es as [|[k' r] es IH]; intros Hk; [discriminate|].
  cbn [entry eval_display] in *. destruct r as [v|e0]; [|now exists e0].
  cbn [rbind]. destruct (k =? k'); [discriminate|].
  destruct (IH Hk) as (e' & ->). now exists e'.
Qed.

(** X15. When the document is assembled, can be encoded as JSON and the
    store answers the POST with a status other than 200, 201 and 202, the
    handler raises an HTTP 500 whose detail is CouchDB error, a colon and the
    body of the answer; the POST was sent once and is not repeated. A
    document that cannot be encoded (a float that is not finite) raises
    before anything is sent. The document is assembled for no instance of
    the create model, so none of this is reached through the route. *)
Theorem create_entry_store_refuses
        (W : World) (payload : pyval) (st : state) (cfg : config)
        (d : list (string * pyval)) (res : response) :
  get_couch_config W = Ok cfg ->
  eval_display (doc_display payload (now_iso W)
                  (doc_id_of (Spec.drawn W (draws st) 7))) = Ok d ->
  store W (trace st) (post_doc cfg (PyDict d)) = Answered res ->
  ~ In (status_code res) [200; 201; 202]%Z ->
  (Json.dumps (PyDict d) = Ok tt ->
   create_entry W payload st =
   (Raise (HTTPException 500 ("CouchDB error: " ++ text res)),
    {| trace := trace st ++ [(post_doc cfg (PyDict d), Answered res)];
       draws := draws st + 7 |})) /\
  (forall e, Json.dumps (PyDict d) = Raise e ->
   create_entry W payload st =
   (Raise e, {| trace := trace st; draws := draws st + 7 |})) /\
  (forall p, payload <> Models.EntryCreate_instance p).
Proof.
  intros Hc Hd Hs Hsc. split; [|split].
  - rewrite create_entry_run, Hc, Hd. cbv zeta.
    intros ->. rewrite Hs. apply status_in_false in Hsc. now rewrite Hsc.
  - rewrite create_entry_run, Hc, Hd. cbv zeta. now intros e ->.
  - intros p ->.
    destruct (eval_display_raises
                (doc_display (Models.EntryCreate_instance p) (now_iso W)
                   (doc_id_of (Spec.drawn W (draws st) 7)))
                "createdAt" no_date) as (e' & He').
    + now rewrite doc_display_instance.
    + rewrite He' in Hd. discriminate.
Qed.

Lemma create_entry_store_refuses_witness :
  fst (create_entry Scenarios.refusing Examples.dated_object start) =
    Raise (HTTPException 500 "CouchDB error: conflict") /\
  (exists e,
     create_entry Scenarios.refusing Scenarios.dated_nan start =
     (Raise e, {| trace := []; draws := 7 |})).
Proof.
  assert (~ In 409%Z [200; 201; 202]%Z) as Hsc
      by (cbn; intros [H|[H|[H|[]]]]; discriminate).
  split.
  - assert (exists d,
              eval_display (doc_display Examples.dated_object (now_iso Scenarios.refusing)
                              (doc_id_of (Spec.drawn Scenarios.refusing (draws start) 7)))
              = Ok d /\ Json.dumps (PyDict d) = Ok tt) as (d & Hd & Hj)
        by (eexists; split; reflexivity).
    destruct (create_entry_store_refuses Scenarios.refusing Examples.dated_object start
                Examples.local_cfg d (Examples.response_of 409 "conflict")
                eq_refl Hd eq_refl Hsc) as [H _].
    now rewrite (H Hj).
  - assert (exists d e,
              eval_display (doc_display Scenarios.dated_nan (now_iso Scenarios.refusing)
                              (doc_id_of (Spec.drawn Scenarios.refusing (draws start) 7)))
              = Ok d /\ Json.dumps (PyDict d) = Raise e) as (d & e & Hd & Hj)
        by (do 2 eexists; split; reflexivity).
    destruct (create_entry_store_refuses Scenarios.refusing Scenarios.dated_nan start
                Examples.local_cfg d (Examples.response_of 409 "conflict")
                eq_refl Hd eq_refl Hsc) as [_ [H _]].
    exists e. exact (H e Hj).
Defined.

(** X16. The handler reads ten attributes off the payload, [date] among
    them; if the payload lacks any one of them, the handler returns no
    document and sends nothing to the store. *)
Theorem create_entry_needs_every_attribute
        (W : World) (payload : pyval) (st : state) (name : string) (e : exn) :
  In name Derived.attributes_read ->
  Py.getattr payload name = Raise e ->
  trace (snd (create_entry W payload st)) = trace st /\
  exists e', fst (create_entry W payload st) = Raise e'.
Proof.
  intros Hin Hget.
  assert (forall now id, exists e', eval_display (doc_display payload now id) = Raise e')
    as Hraise.
  { intros now id.
    assert (exists k, entry k (doc_display payload now id) = Some (Raise e)) as (k & Hk).
    { unfold doc_display.
      cbn in Hin. decompose [or] Hin; subst; try contradiction.
      - exists "entryType". cbn [entry String.eqb Ascii.eqb Bool.eqb]. now rewrite Hget.
      - exists "category". cbn [entry String.eqb Ascii.eqb Bool.eqb]. now rewrite Hget.
      - exists "amount". cbn [entry String.eqb Ascii.eqb Bool.eqb]. now rewrite Hget.
      - exists "currency". cbn [entry String.eqb Ascii.eqb Bool.eqb]. now rewrite Hget.
      - exists "paymentMethod". cbn [entry String.eqb Ascii.eqb Bool.eqb].
        now rewrite Hget.
      - exists "notes". cbn [entry String.eqb Ascii.eqb Bool.eqb]. now rewrite Hget.
      - exists "createdAt". cbn [entry String.eqb Ascii.eqb Bool.eqb]. now rewrite Hget.
      - exists "recordedBy". cbn [entry String.eqb Ascii.eqb Bool.eqb]. now rewrite Hget.
      - exists "deviceId". cbn [entry String.eqb Ascii.eqb Bool.eqb]. now rewrite Hget.
      - exists "meta". cbn [entry String.eqb Ascii.eqb Bool.eqb]. now rewrite Hget. }
    now apply eval_display_raises in Hk. }
  rewrite create_entry_run.
  destruct (get_couch_config W) as [cfg|e0]; [|cbn; eauto].
  destruct (Hraise (now_iso W) (doc_id_of (Spec.drawn W (draws st) 7))) as (e' & ->).
  cbn. eauto.
Qed.

Lemma create_entry_needs_every_attribute_witness :
  Py.getattr (Models.EntryCreate_instance Examples.food_payload) "date" = Raise no_date /\
  trace (snd (create_entry Examples.fresh
                (Models.EntryCreate_instance Examples.food_payload) start)) = trace start.
Proof.
  split; [reflexivity|].
  apply (create_entry_needs_every_attribute Examples.fresh
           (Models.EntryCreate_instance Examples.food_payload) start "date" no_date);
    [cbn; tauto | reflexivity].
Defined.

(** ** The create model *)

Lemma literal_cases (s a b : string) :
  Models.literal [a; b] s = true <-> s = a \/ s = b.
Proof.
  unfold Models.literal. cbn [existsb]. rewrite !orb_true_iff, !String.eqb_eq.
  intuition discriminate.
Qed.

(** X19. Validation is stable: a validated instance written back as a
    body, with every field given and any undeclared keys added, validates to
    the same instance; in particular the defaults PKR, cash and manual
    satisfy the constraints of their fields. *)
Theorem EntryCreate_validate_round_trip
        (b : Models.body) (p : Models.EntryCreate) (extra : list (string * pyval)) :
  Models.EntryCreate_validate b = Ok p ->
  Models.EntryCreate_validate (Derived.as_body p extra) = Ok p.
Proof.
  destruct b as [et cat amt cur pm notes rb dev mt ex].
  unfold Models.EntryCreate_validate, Models.EntryMeta_validate.
  cbn [Models.b_entryType Models.b_category Models.b_amount Models.b_currency
       Models.b_paymentMethod Models.b_notes Models.b_recordedBy Models.b_deviceId
       Models.b_meta Models.b_extra].
  destruct et as [et|]; [|discriminate]. cbn [Models.required rbind].
  destruct (Models.literal ["expense"; "income"] et) eqn:Het; [|discriminate].
  cbn [Models.check rbind].
  destruct cat as [cat|]; [|discriminate].
  destruct amt as [amt|]; [|discriminate]. cbn [Models.required rbind].
  destruct cur as [[|c0 cur]|];
    cbn [String.length Nat.leb Models.check rbind]; try discriminate;
    (destruct rb as [rb|];
     [destruct (Models.literal ["voice"; "manual"] rb) eqn:Hrb;
      cbn [Models.check rbind]; try discriminate|];
     (destruct mt as [[vt [x|] lg]|];
      cbn [Models.asrConfidence rbind];
      [destruct (PrimFloat.leb 0 x && PrimFloat.leb x 1) eqn:Hx;
       cbn [Models.check rbind]; try discriminate| |];
      intros H; injection H as <-;
      cbn [Derived.as_body Models.b_entryType Models.b_category Models.b_amount
           Models.b_currency Models.b_paymentMethod Models.b_notes Models.b_recordedBy
           Models.b_deviceId Models.b_meta Models.b_extra Models.entryType
           Models.category Models.amount Models.currency Models.paymentMethod
           Models.notes Models.recordedBy Models.deviceId Models.meta
           Models.required rbind Models.asrConfidence];
      rewrite ?Het, ?Hrb, ?Hx; reflexivity)).
Qed.

Lemma EntryCreate_validate_round_trip_witness :
  Models.EntryCreate_validate Scenarios.spoken = Ok Scenarios.spoken_payload /\
  Models.EntryCreate_validate
    (Derived.as_body Scenarios.spoken_payload [("date", PyStr "2024")]) =
  Ok Scenarios.spoken_payload.
Proof.
  split; [reflexivity|].
  apply (EntryCreate_validate_round_trip Scenarios.spoken). reflexivity.
Defined.

(** X20. Every instance that validation lets through keeps the
    constraints of the model: its entryType is expense or income, its
    currency is not empty, its recordedBy is voice or manual, and the
    asrConfidence of its meta, when it has one, lies between 0 and 1. *)
Theorem EntryCreate_instance_invariants (b : Models.body) (p : Models.EntryCreate) :
  Models.EntryCreate_validate b = Ok p ->
  (Models.entryType p = "expense" \/ Models.entryType p = "income") /\
  Models.currency p <> "" /\
  (Models.recordedBy p = "voice" \/ Models.recordedBy p = "manual") /\
  forall m x,
    Models.meta p = Some m -> Models.asrConfidence m = Some x ->
    PrimFloat.leb 0 x = true /\ PrimFloat.leb x 1 = true.
Proof.
  intros Hv.
  destruct (EntryCreate_validate_inv b p Hv) as (_ & Het & _ & _ & _ & Hne & _ & _ & Hrb).
  split; [now apply literal_cases|]. split; [exact Hne|].
  split; [now apply literal_cases|].
  intros m x Hm Hx. apply andb_true_iff.
  revert Hv. unfold Models.EntryCreate_validate.
  repeat match goal with
         | |- context [rbind ?r _] => destruct r eqn:?; [|discriminate]; cbn [rbind]
         end.
  intros H. injection H as <-. cbn [Models.meta] in Hm. subst.
  match goal with
  | H : match Models.b_meta b with _ => _ end = Ok (Some m) |- _ =>
      destruct (Models.b_meta b) as [m0|]; [|discriminate];
      unfold Models.EntryMeta_validate in H
  end.
  destruct (Models.asrConfidence m0) as [x0|] eqn:Hx0.
  - match goal with
    | H : rbind (rbind (Models.check _ ?c) _) _ = _ |- _ =>
        destruct c eqn:Hc; [|discriminate]; cbn in H; injection H as <-
    end.
    rewrite Hx0 in Hx. injection Hx as <-. exact Hc.
  - match goal with
    | H : rbind (Ok m0) _ = _ |- _ => cbn in H; injection H as <-
    end.
    congruence.
Qed.

Lemma EntryCreate_instance_invariants_witness :
  Models.EntryCreate_validate Scenarios.spoken = Ok Scenarios.spoken_payload /\
  Models.currency Scenarios.spoken_payload <> "".
Proof.
  split; [reflexivity|].
  destruct (EntryCreate_instance_invariants Scenarios.spoken Scenarios.spoken_payload
              eq_refl) as (_ & H & _).
  exact H.
Defined.

(** ** Handlers end to end *)

(** X21. When the store answers the ensurer's GET with 401 or 403, the
    listing handler raises an HTTP 500 whose detail is Error, a colon and the
    unauthorized message; it has sent that GET only: no PUT and no listing
    request follow. *)
Theorem list_entries_unauthorized
        (W : World) (limit skip : option Z) (st : state) (cfg : config) (g : response) :
  get_couch_config W = Ok cfg ->
  Spec.name_grammar (db cfg) = true ->
  store W (trace st) (get_db (base_url cfg) (db cfg)) = Answered g ->
  status_code g = 401%Z \/ status_code g = 403%Z ->
  list_entries W limit skip st =
  (Raise (HTTPException 500
            "Error: Unauthorized to access CouchDB. Check credentials/URL."),
   {| trace := trace st ++ [(get_db (base_url cfg) (db cfg), Answered g)];
      draws := draws st |}).
Proof.
  intros Hc Hn Hg Hsc.
  assert (validate_db_name (PyStr (db cfg)) = Ok tt) as Hv
      by (apply validate_db_name_accepts; now left).
  rewrite list_entries_run, Hc.
  rewrite (ensure_db_exists_after_get W (base_url cfg) (db cfg) st g Hv Hg). cbv zeta.
  destruct Hsc as [E|E]; rewrite E; reflexivity.
Qed.

Lemma list_entries_unauthorized_witness :
  list_entries Scenarios.locked None None start =
  (Raise (HTTPException 500
            "Error: Unauthorized to access CouchDB. Check credentials/URL."),
   {| trace := [(get_db "http://localhost:5984" "fintech",
                 Answered (Examples.response_of 401 "unauthorized"))];
      draws := 0 |}).
Proof.
  apply (list_entries_unauthorized Scenarios.locked None None start Examples.local_cfg
           (Examples.response_of 401 "unauthorized"));
    [reflexivity | reflexivity | reflexivity | now left].
Defined.

Lemma eval_display_keys (es : list (string * result pyval)) (d : list (string * pyval)) :
  eval_display es = Ok d -> map fst d = map fst es.
Proof.
  revert d. induction es as [|[k r] es IH]; intros d H.
  - cbn in H. now injection H as <-.
  - cbn [eval_display] in H. destruct r as [v|e]; [|discriminate]. cbn [rbind] in H.
    destruct (eval_display es) as [d'|e]; [|discriminate]. cbn [rbind] in H.
    injection H as <-. cbn [map fst]. f_equal. now apply IH.
Qed.

(** X22. Whenever the create handler returns, what it returns is a
    document with exactly the thirteen keys of the dict display, in that
    order. Six attributes of the payload are copied unchanged and unchecked;
    currency and paymentMethod are the payload's unless falsy, then PKR and
    cash; createdAt is the payload's date unless falsy, then the server
    timestamp; meta is the dump of the payload's meta, or None when that is
    falsy. *)
Theorem create_entry_returned_document
        (W : World) (payload doc : pyval) (st st' : state) :
  create_entry W payload st = (Ok doc, st') ->
  exists d,
    doc = PyDict d /\
    map fst d = Derived.document_keys /\
    (forall name, In name Derived.copied ->
       exists v, Py.getattr payload name = Ok v /\ Py.assoc name d = Some v) /\
    (exists c, Py.getattr payload "currency" = Ok c /\
               Py.assoc "currency" d = Some (if Py.truthy c then c else PyStr "PKR")) /\
    (exists m, Py.getattr payload "paymentMethod" = Ok m /\
               Py.assoc "paymentMethod" d = Some (if Py.truthy m then m else PyStr "cash")) /\
    (exists t, Py.getattr payload "date" = Ok t /\
               Py.assoc "createdAt" d =
               Some (if Py.truthy t then t else PyStr (now_iso W))) /\
    (exists m, Py.getattr payload "meta" = Ok m /\
               Py.assoc "meta" d = Some (if Py.truthy m then Py.dump m else PyNone)).
Proof.
  intros H.
  apply create_entry_returns in H as (cfg & d & res & _ & Hd & -> & _).
  exists d. split; [reflexivity|].
  split; [now rewrite (eval_display_keys _ _ Hd)|].
  revert Hd. unfold doc_display. cbn [eval_display rbind].
  destruct (Py.getattr payload "entryType") as [v1|] eqn:E1; [|discriminate].
  destruct (Py.getattr payload "category") as [v2|] eqn:E2; [|discriminate].
  destruct (Py.getattr payload "amount") as [v3|] eqn:E3; [|discriminate].
  destruct (Py.getattr payload "currency") as [v4|] eqn:E4; [|discriminate].
  destruct (Py.getattr payload "paymentMethod") as [v5|] eqn:E5; [|discriminate].
  destruct (Py.getattr payload "notes") as [v6|] eqn:E6; [|discriminate].
  destruct (Py.getattr payload "date") as [v7|] eqn:E7; [|discriminate].
  destruct (Py.getattr payload "recordedBy") as [v8|] eqn:E8; [|discriminate].
  destruct (Py.getattr payload "deviceId") as [v9|] eqn:E9; [|discriminate].
  destruct (Py.getattr payload "meta") as [v10|] eqn:E10; [|discriminate].
  cbn [rbind]. unfold Py.or_.
  destruct (Py.truthy v10) eqn:T10.
  - destruct v10; try discriminate T10; cbn [Py.model_dump rbind]; try discriminate.
    intros Hd. injection Hd as <-.
    split; [|repeat split; eexists; (split; [reflexivity | rewrite ?T10; reflexivity])].
    intros name Hin. cbn in Hin. decompose [or] Hin; subst; try contradiction;
      eexists; (split; [eassumption | reflexivity]).
  - cbn [rbind]. intros Hd. injection Hd as <-.
    split; [|repeat split; eexists; (split; [reflexivity | rewrite ?T10; reflexivity])].
    intros name Hin. cbn in Hin. decompose [or] Hin; subst; try contradiction;
      eexists; (split; [eassumption | reflexivity]).
Qed.

Lemma create_entry_returned_document_witness :
  exists d,
    fst (create_entry Examples.fresh Examples.dated_object start) = Ok (PyDict d) /\
    map fst d = Derived.document_keys.
Proof.
  destruct (create_entry Examples.fresh Examples.dated_object start) as [r st'] eqn:H.
  assert (exists doc, r = Ok doc) as (doc & ->)
      by (vm_compute in H; injection H as <- _; eexists; reflexivity).
  destruct (create_entry_returned_document _ _ _ _ _ H) as (d & -> & Hk & _).
  exists d. split; [reflexivity | exact Hk].
Defined.

(** ** One database, two spellings of its path *)

Lemma quote_length (s : string) : String.length s <= String.length (Urllib.quote s "").
Proof.
  induction s as [|c s IH]; [auto|].
  cbn [Urllib.quote String.length]. rewrite length_append.
  assert (1 <= String.length (Urllib.quote_char "" c))
    by (destruct c as [[] [] [] [] [] [] [] []]; vm_compute; lia).
  lia.
Qed.

Lemma quote_char_cases (c : ascii) :
  (Derived.unreserved c = true /\ Urllib.quote_char "" c = String c "") \/
  (Derived.unreserved c = false /\ 3 <= String.length (Urllib.quote_char "" c)).
Proof.
  destruct c as [[] [] [] [] [] [] [] []]; vm_compute;
    first [left; split; reflexivity | right; split; [reflexivity | lia]].
Qed.

Lemma quote_identity_iff (s : string) :
  Urllib.quote s "" = s <-> Spec.all Derived.unreserved s = true.
Proof.
  induction s as [|c s IH]; [split; reflexivity|].
  cbn [Urllib.quote Spec.all]. rewrite andb_true_iff.
  destruct (quote_char_cases c) as [[Hu Hq]|[Hu Hl]]; rewrite Hu.
  - rewrite Hq. cbn [append]. split.
    + intros H. injection H as H. split; [reflexivity | now apply IH].
    + intros [_ H]. apply IH in H. now rewrite H.
  - split; [|intros [H _]; discriminate]. intros H. exfalso.
    apply (f_equal String.length) in H. rewrite length_append in H.
    cbn [String.length] in H. pose proof (quote_length s). lia.
Qed.

Lemma append_inv_head (a b c : string) : a ++ b = a ++ c -> b = c.
Proof.
  induction a as [|x a IH]; cbn [append]; [auto|]. intros H. injection H as H. auto.
Qed.

Lemma append_inv_tail (a b t : string) : a ++ t = b ++ t -> a = b.
Proof.
  revert b. induction a as [|x a IH]; intros [|y b] H.
  - reflexivity.
  - apply (f_equal String.length) in H. cbn [String.length append] in H.
    rewrite length_append in H. lia.
  - apply (f_equal String.length) in H. cbn [String.length append] in H.
    rewrite length_append in H. lia.
  - cbn [append] in H. injection H as -> H. f_equal. now apply IH.
Qed.

Lemma unreserved_name_chars (s : string) :
  Spec.all Spec.name_char s = true ->
  Spec.all Derived.unreserved s =
  Spec.all (fun c => negb (Py.one_of "$()+/" c)) s.
Proof.
  induction s as [|c s IH]; [reflexivity|].
  cbn [Spec.all]. rewrite andb_true_iff. intros [Hc Hs]. rewrite (IH Hs). f_equal.
  revert Hc. destruct c as [[] [] [] [] [] [] [] []]; vm_compute; congruence.
Qed.

(** X23. The ensurer percent-encodes the database name, while the create
    and listing handlers splice it into their URLs as it is. For a name of
    the grammar, the path that the ensurer checks is the path that the other
    requests address exactly when the name has no dollar sign, parenthesis,
    plus sign or slash, all of which the grammar allows. *)
Theorem ensured_path_is_used_path_iff (cfg : config) (doc : pyval) (limit skip : option Z) :
  Spec.name_grammar (db cfg) = true ->
  (rq_url (get_db (base_url cfg) (db cfg)) = rq_url (post_doc cfg doc) <->
   Spec.all (fun c => negb (Py.one_of "$()+/" c)) (db cfg) = true) /\
  (rq_url (get_db (base_url cfg) (db cfg)) ++ "/_all_docs" =
   rq_url (all_docs cfg limit skip) <->
   Spec.all (fun c => negb (Py.one_of "$()+/" c)) (db cfg) = true).
Proof.
  intros Hg.
  assert (Spec.all Spec.name_char (db cfg) = true) as Hn.
  { destruct (db cfg) as [|c s]; [discriminate|]. cbn [Spec.name_grammar Spec.all] in *.
    apply andb_true_iff in Hg as [Hc Hs]. rewrite Hs, andb_true_r.
    unfold Spec.name_char. now rewrite Hc. }
  rewrite <- (unreserved_name_chars _ Hn), <- quote_identity_iff.
  cbn [get_db post_doc all_docs rq_url]. unfold db_path. split.
  - split.
    + intros H. now apply append_inv_head, append_inv_head in H.
    + now intros ->.
  - split.
    + intros H. rewrite !append_assoc in H.
      apply append_inv_head, append_inv_head in H. now apply append_inv_tail in H.
    + intros ->. now rewrite !append_assoc.
Qed.

Lemma ensured_path_is_used_path_iff_witness :
  get_couch_config Scenarios.nested =
    Ok {| base_url := "http://localhost:5984"; db := "team/ledger" |} /\
  rq_url (get_db "http://localhost:5984" "team/ledger") =
    "http://localhost:5984/team%2Fledger" /\
  rq_url (get_db "http://localhost:5984" "team/ledger") <>
    rq_url (post_doc {| base_url := "http://localhost:5984"; db := "team/ledger" |} PyNone).
Proof.
  split; [reflexivity|]. split; [reflexivity|].
  destruct (ensured_path_is_used_path_iff
              {| base_url := "http://localhost:5984"; db := "team/ledger" |}
              PyNone None None eq_refl) as [[H _] _].
  intros E. apply H in E. discriminate.
Defined.
